(** * school-api: a shallow embedding of the REST controllers, the JWT
      middleware and the route composition, with their specification.

    Sources embedded here:
    - the authentication middleware, [authenticateJWT] and [JWT_SECRET]
      ([src/middleware/auth.js], lines 1-17);
    - the student controller ([src/middleware/auth.js], lines 18-244) and the
      teacher controller ([src/controllers/teacher.controller.js], lines
      1-230), five handlers each;
    - the composition of the application, the [app.use] calls
      ([src/controllers/teacher.controller.js], lines 231-259).

    Express, jsonwebtoken and Sequelize are libraries: the embedding gives the
    part of their behaviour that the sources rely on. The files that declare
    the models' associations, the routers and the API documentation are not
    among the sources; the associations and columns of the models, what the
    database leaves open (how it reads a primary key, the order of records
    with equal creation times), the course and auth routers and the
    documentation middleware are parameters, and the student and teacher
    routers are the routes the specification lists.

    Conventions of the embedding.
    - JavaScript strings are [string]s; a character is a code unit below 256.
    - JavaScript numbers are modelled by [number]: [NaN], an infinity, or a
      double whose value is an integer. Every number the handlers keep is one
      of these; arithmetic rounds to the nearest double ([double]), so it is
      exact up to 2^53 and rounds beyond. The sign of zero is not kept.
    - A handler is a computation in the monad [M]: it reads and writes the
      world (the store behind the ORM and the response object) and may throw.
      A thrown exception keeps the writes made before it, as in JavaScript.
*)

From stdpp Require Import base option list strings functions gmap sorting.
From Stdlib Require Import ZArith Lia Ascii String.

Local Open Scope string_scope.
Local Open Scope Z_scope.

(** ** JavaScript primitives used by the sources *)

Module JS.

(** A JavaScript number, as far as the handlers produce them: [NaN], a
    double whose value is the integer [z], or an infinity. *)
Inductive number :=
| NaN
| Num (z : Z)
| Infinity (negative : bool).

(** [Number.MAX_SAFE_INTEGER] *)
Definition MAX_SAFE_INTEGER : Z := 2 ^ 53 - 1.

(** The double nearest to an integer (IEEE 754 binary64, round to nearest,
    ties to even): integers up to 2^53 in magnitude are kept, larger ones
    keep their 53 leading bits, and a magnitude that rounds to 2^1024 or
    more overflows to an infinity. *)
Definition double (z : Z) : number :=
  let n := Z.abs z in
  if n <=? MAX_SAFE_INTEGER then Num z
  else
    let e := Z.log2 n - 52 in
    let q := n / 2 ^ e in
    let r := n mod 2 ^ e in
    let half := 2 ^ (e - 1) in
    let q' := if (half <? r) || ((r =? half) && Z.odd q) then q + 1 else q in
    let m := q' * 2 ^ e in
    if 2 ^ 1024 <=? m then Infinity (z <? 0) else Num (Z.sgn z * m).

(** [a - b] *)
Definition sub (a b : number) : number :=
  match a, b with
  | NaN, _ | _, NaN => NaN
  | Num x, Num y => double (x - y)
  | Num _, Infinity neg => Infinity (negb neg)
  | Infinity neg, Num _ => Infinity neg
  | Infinity n1, Infinity n2 => if Bool.eqb n1 n2 then NaN else Infinity n1
  end.

(** [a * b] *)
Definition mul (a b : number) : number :=
  match a, b with
  | NaN, _ | _, NaN => NaN
  | Num x, Num y => double (x * y)
  | Num x, Infinity neg =>
      if x =? 0 then NaN else Infinity (xorb (x <? 0) neg)
  | Infinity neg, Num y =>
      if y =? 0 then NaN else Infinity (xorb neg (y <? 0))
  | Infinity n1, Infinity n2 => Infinity (xorb n1 n2)
  end.

(** Values that Express puts in [req.query]: a string, an array (a key
    given several times, or [k[]=v]) or a nested object ([k[a]=v]). *)
#[warnings="-register-all"]
Inductive qval :=
| QStr (s : string)
| QArr (items : list qval)
| QObj (props : list (string * qval)).

(** White space as recognised by [String.prototype.trim] and by [parseInt]
    (TAB, LF, VT, FF, CR, SP, NBSP among the code units below 256). *)
Definition isWhiteSpace (c : ascii) : bool :=
  let n := nat_of_ascii c in
  ((9 <=? n)%nat && (n <=? 13)%nat) || (n =? 32)%nat || (n =? 160)%nat.

Fixpoint trimStart (s : string) : string :=
  match s with
  | String c s' => if isWhiteSpace c then trimStart s' else s
  | EmptyString => EmptyString
  end.

Fixpoint trimEnd (s : string) : string :=
  match s with
  | String c s' =>
      match trimEnd s' with
      | EmptyString => if isWhiteSpace c then EmptyString else String c EmptyString
      | t => String c t
      end
  | EmptyString => EmptyString
  end.

(** [s.trim()] *)
Definition trim (s : string) : string := trimEnd (trimStart s).

(** [s.split(sep)] for a one-character separator: never the empty list. *)
Fixpoint split (sep : ascii) (s : string) : list string :=
  match s with
  | EmptyString => [EmptyString]
  | String c s' =>
      if Ascii.eqb c sep then EmptyString :: split sep s'
      else match split sep s' with
           | seg :: rest => String c seg :: rest
           | [] => [String c EmptyString]
           end
  end.

(** [Array.prototype.join] *)
Fixpoint join (sep : string) (l : list string) : string :=
  match l with
  | [] => ""
  | [x] => x
  | x :: rest => x ++ sep ++ join sep rest
  end.

(** [ToString] on a query value; [None] is [undefined]. *)
Fixpoint ToString (v : qval) : string :=
  match v with
  | QStr s => s
  | QArr items => join "," (map ToString items)
  | QObj _ => "[object Object]"
  end.

Definition ToString_opt (v : option qval) : string :=
  match v with
  | Some v => ToString v
  | None => "undefined"
  end.

(** The value of a digit in the given radix (10 or 16). *)
Definition digit_value (radix : Z) (c : ascii) : option Z :=
  let n := Z.of_nat (nat_of_ascii c) in
  let d :=
    if (48 <=? n) && (n <=? 57) then Some (n - 48)
    else if (97 <=? n) && (n <=? 122) then Some (n - 87)
    else if (65 <=? n) && (n <=? 90) then Some (n - 55)
    else None in
  match d with
  | Some k => if k <? radix then Some k else None
  | None => None
  end.

(** Reads the longest prefix of digits; [acc] is the value read so far and
    [seen] tells whether a digit was read. *)
Fixpoint parse_digits (radix : Z) (s : string) (acc : Z) (seen : bool)
  : option Z :=
  match s with
  | String c s' =>
      match digit_value radix c with
      | Some d => parse_digits radix s' (acc * radix + d) true
      | None => if seen then Some acc else None
      end
  | EmptyString => if seen then Some acc else None
  end.

(** [parseInt(s)] with no radix argument (ECMA-262, 19.2.5): the integer
    the digits denote, as a double. *)
Definition parseInt_string (s : string) : number :=
  let s1 := trimStart s in
  let '(sign, s2) :=
    match s1 with
    | String "-" r => (-1, r)
    | String "+" r => (1, r)
    | _ => (1, s1)
    end in
  let '(radix, s3) :=
    match s2 with
    | String "0" (String "x" r) => (16, r)
    | String "0" (String "X" r) => (16, r)
    | _ => (10, s2)
    end in
  match parse_digits radix s3 0 false with
  | Some n => double (sign * n)
  | None => NaN
  end.

Definition parseInt (v : option qval) : number :=
  parseInt_string (ToString_opt v).

(** [n || d] on numbers: [NaN] and zero are falsy. *)
Definition num_or (n d : number) : number :=
  match n with
  | NaN => d
  | Num z => if z =? 0 then d else n
  | Infinity _ => n
  end.

(** [Math.ceil(a / b)] for a count [a] of records (an integer with
    [0 <= a <= MAX_SAFE_INTEGER]) and a number [b]. The quotient of the
    doubles is the rounded exact quotient, and rounding never crosses an
    integer here: when [|b| <= a] both operands are below 2^53 and the exact
    quotient is an integer or lies at least [1 / |b|] from one, which is more
    than half the distance between neighbouring doubles of that size; when
    [|b| > a] the quotient lies strictly between -1 and 1 and is zero only
    for [a = 0]. *)
Definition ceil_div (a : Z) (b : number) : number :=
  match b with
  | NaN => NaN
  | Num z =>
      if z =? 0 then (if a =? 0 then NaN else Infinity (a <? 0))
      else Num (- ((- a) / z))
  | Infinity _ => Num 0
  end.

(** The names every object literal inherits from [Object.prototype]. *)
Definition Object_prototype_members : list string :=
  [ "constructor"; "__defineGetter__"; "__defineSetter__"; "hasOwnProperty";
    "__lookupGetter__"; "__lookupSetter__"; "isPrototypeOf";
    "propertyIsEnumerable"; "toString"; "valueOf"; "__proto__";
    "toLocaleString" ].

(** The result of [o[k]] on an object literal [o]: an own property, or a
    member found on the prototype chain. [None] is [undefined]. *)
Inductive property (V : Type) :=
| Own (v : V)
| Inherited (member : string).
Arguments Own {V} v.
Arguments Inherited {V} member.

Definition get_property {V} (o : gmap string V) (k : string)
  : option (property V) :=
  match o !! k with
  | Some v => Some (Own v)
  | None =>
      if decide (k ∈ Object_prototype_members) then Some (Inherited k)
      else None
  end.

(** [v === s] for a string literal [s]. *)
Definition strict_eq_string (v : option qval) (s : string) : bool :=
  match v with
  | Some (QStr t) => String.eqb t s
  | _ => false
  end.

(** [v || ''] on a query value: [undefined] and the empty string are the
    only falsy ones. *)
Definition or_empty (v : option qval) : qval :=
  match v with
  | Some v => v
  | None => QStr ""
  end.

(** The truth value of a string that may be [undefined]: [undefined] and
    the empty string are falsy. *)
Definition truthy (v : option string) : bool :=
  match v with
  | Some s => negb (String.eqb s "")
  | None => false
  end.

(** [s || d] on strings. *)
Definition str_or (s d : string) : string :=
  if String.eqb s "" then d else s.

(** A thrown JavaScript value; [message] is its [.message]. *)
Inductive error :=
| TypeError (msg : string)
| Error (msg : string).

Definition message (e : error) : string :=
  match e with
  | TypeError m => m
  | Error m => m
  end.

End JS.

(** An integer literal of the sources is the number of that value. *)
Coercion JS.Num : Z >-> JS.number.

(** ** The persistence layer (Sequelize models behind [db])

    A table is a finite map from primary keys to records. A storage call may
    throw: because the store was scheduled to fail ([faults], which stand
    for any error of the database or of a validation), because an element of
    [include] is not a relation of the model, because a record with the
    given primary key exists already, or because [LIMIT] or [OFFSET] is not
    an integer from 0 to 2^63 - 1. Every dialect accepts that range; what a
    dialect does outside it differs (MySQL takes [LIMIT] up to 2^64 - 1,
    SQLite reads a negative [LIMIT] as no limit), and no statement below
    depends on it. *)

Module Storage.

(** The models registered in [db]. *)
Inductive Model := User | Student | Teacher | Course.

#[export] Instance Model_eq_dec : EqDecision Model.
Proof. solve_decision. Defined.

Definition modelName (m : Model) : string :=
  match m with
  | User => "User"
  | Student => "Student"
  | Teacher => "Teacher"
  | Course => "Course"
  end.

(** A stored record: its time stamps and the values of its other columns (a
    column without value is absent from the map). A table maps the primary
    key [id] to the record. *)
Record Row := mkRow {
  row_createdAt : Z;
  row_updatedAt : Z;
  row_values : gmap string string
}.

(** An element of a query's [include] option. *)
Inductive IncludeEntry :=
| IncludeSpec (model : Model) (attributes : list string)
              (through : option (list string))
    (** [{ model, attributes, through: { attributes } }] *)
| IncludeModel (model : Model)
    (** a bare model, as in [{ include: db.Course }] *)
| IncludeProto (member : string)
    (** a member of [Object.prototype]: neither a model nor an include
        object *).

Definition include_target (e : IncludeEntry) : option Model :=
  match e with
  | IncludeSpec m _ _ => Some m
  | IncludeModel m => Some m
  | IncludeProto _ => None
  end.

(** A model instance as returned by a finder: the record and the eagerly
    loaded relations, by alias. *)
Record Instance := mkInstance {
  inst_model : Model;
  inst_id : Z;
  inst_row : Row;
  inst_included : list (string * list (Z * Row))
}.

(** The options object given to [findAndCountAll] by the controllers. *)
Record FindOptions := mkFindOptions {
  include : option (list IncludeEntry);
  limit : JS.number;
  offset : JS.number;
  order : list (string * string);
  distinct : bool
}.

(** What the model files and the database decide; [models/index.js], the
    student and teacher models and the database configuration are not part
    of the sources, so this is a parameter of the development:
    - the associations declared between the models, the alias of each and
      the records it relates;
    - [columns]: the attributes a model declares, other than [id],
      [createdAt] and [updatedAt];
    - [pk_of_param]: the primary key the database reads in the text of a
      route parameter or of a body's [id] ([WHERE id = :id]), [None] when it
      reads none (the dialects differ on texts such as ["+2"] or ["2.0"];
      a dialect that refuses a text with an error is a store whose call
      fails, see [faults]);
    - [scan]: the order in which the database visits the records of a
      table to answer a query; it decides the order of records with equal
      [createdAt], which may differ from one query to another. *)
Record Schema := mkSchema {
  associated : Model -> Model -> bool;
  alias : Model -> Model -> string;
  related : Model -> Model -> (Model -> gmap Z Row) -> Z -> list (Z * Row);
  columns : Model -> list string;
  pk_of_param : string -> option Z;
  scan : FindOptions -> gmap Z Row -> list (Z * Row)
}.

(** The calls the controllers make on the persistence layer. *)
Inductive Call :=
| CallCreate (m : Model) (values : gmap string string)
| CallFindAndCountAll (m : Model) (options : FindOptions)
| CallFindByPk (m : Model) (id : option string) (inc : option IncludeEntry)
| CallUpdate (m : Model) (pk : Z) (values : gmap string string)
| CallDestroy (m : Model) (pk : Z).

(** The state behind [db]: one table per model, the auto-increment
    counters, the clock, the faults the store will raise, whatever their
    cause (each storage call consumes the head of [faults] and throws it
    when it is [Some]), and the calls received so far, oldest first. *)
Record Store := mkStore {
  tables : Model -> gmap Z Row;
  autoinc : Model -> Z;
  clock : Z;
  faults : list (option JS.error);
  trace : list Call
}.

Definition healthy (s : Store) : Prop := faults s = [].

Inductive completion (A : Type) :=
| Normal (a : A)
| Throw (e : JS.error).
Arguments Normal {A} a.
Arguments Throw {A} e.

Definition set_table (m : Model) (t : gmap Z Row) (s : Store) : Store :=
  mkStore (<[m := t]> (tables s)) (autoinc s) (clock s) (faults s) (trace s).

Definition bump_autoinc (m : Model) (s : Store) : Store :=
  mkStore (tables s) (<[m := autoinc s m + 1]> (autoinc s)) (clock s)
    (faults s) (trace s).

(** The counter after a record was inserted with the explicit key [k]. *)
Definition raise_autoinc (m : Model) (k : Z) (s : Store) : Store :=
  mkStore (tables s) (<[m := Z.max (autoinc s m) (k + 1)]> (autoinc s))
    (clock s) (faults s) (trace s).

(** The store once a call has been recorded, with the faults still to come. *)
Definition record_call (c : Call) (fs : list (option JS.error)) (s : Store)
  : Store :=
  mkStore (tables s) (autoinc s) (clock s) fs (trace s ++ [c]).

(** Every storage call starts here: the call is recorded and the next
    scheduled fault, if any, is taken. *)
Definition begin_call (c : Call) (s : Store) : option JS.error * Store :=
  match faults s with
  | [] => (None, record_call c [] s)
  | f :: fs => (f, record_call c fs s)
  end.

(** The largest [LIMIT] and [OFFSET] every dialect accepts. *)
Definition MAX_BIGINT : Z := 2 ^ 63 - 1.

(** The number of rows a [LIMIT] or [OFFSET] stands for, when the database
    accepts it. (Sequelize writes the number in decimal; beyond 2^53 the
    decimal text of a double may denote another integer of the same
    magnitude, which selects the same rows of any table of fewer than 2^53
    records.) *)
Definition row_count (n : JS.number) : option nat :=
  match n with
  | JS.Num z =>
      if (0 <=? z) && (z <=? MAX_BIGINT) then Some (Z.to_nat z) else None
  | _ => None
  end.

Definition createdAt_le (r1 r2 : Z * Row) : Prop :=
  row_createdAt r1.2 <= row_createdAt r2.2.
Definition createdAt_ge (r1 r2 : Z * Row) : Prop :=
  row_createdAt r2.2 <= row_createdAt r1.2.

#[export] Instance createdAt_le_dec : RelDecision createdAt_le.
Proof. intros r1 r2. unfold createdAt_le. apply _. Defined.
#[export] Instance createdAt_ge_dec : RelDecision createdAt_ge.
Proof. intros r1 r2. unfold createdAt_ge. apply _. Defined.

(** A stable sort: elements that the order does not separate stay in the
    order they had. *)
Fixpoint insert_sorted {A} (R : relation A) `{!RelDecision R} (x : A)
    (l : list A) : list A :=
  match l with
  | [] => [x]
  | y :: l' => if decide (R x y) then x :: l else y :: insert_sorted R x l'
  end.

Definition sort_rows {A} (R : relation A) `{!RelDecision R} (l : list A)
  : list A :=
  foldr (insert_sorted R) [] l.

(** [ORDER BY]: the controllers only ever order by [createdAt]; records
    with equal creation times stay in the order of the scan. *)
Definition order_rows (o : list (string * string)) (rows : list (Z * Row))
  : completion (list (Z * Row)) :=
  match o with
  | [] => Normal rows
  | [(col, dir)] =>
      if String.eqb col "createdAt" then
        if String.eqb dir "ASC" then Normal (sort_rows createdAt_le rows)
        else if String.eqb dir "DESC" then
               Normal (sort_rows createdAt_ge rows)
             else Throw (JS.Error "Order direction must be ASC or DESC")
      else Throw (JS.Error ("Unknown column " ++ col))
  | _ => Throw (JS.Error "Unsupported order clause")
  end.

Section WithSchema.
Variable schema : Schema.

(** The record a primary-key search finds, with its key. *)
Definition lookup_pk (m : Model) (id : option string) (s : Store)
  : option (Z * Row) :=
  p ← id; k ← pk_of_param schema p; r ← tables s m !! k; Some (k, r).

(** The values of a body that Sequelize keeps: those of declared columns. *)
Definition column_values (m : Model) (values : gmap string string)
  : gmap string string :=
  filter (fun kv => kv.1 ∈ columns schema m) values.

(** Sequelize checks every element of [include] before it queries. *)
Definition check_include (m : Model) (e : IncludeEntry)
  : option JS.error :=
  match include_target e with
  | None =>
      Some (JS.Error
        "Include unexpected. Element has to be either a Model, an Association or an object.")
  | Some m' =>
      if associated schema m m' then None
      else Some (JS.Error
             (modelName m' ++ " is not associated to " ++ modelName m ++ "!"))
  end.

Fixpoint check_includes (m : Model) (es : list IncludeEntry)
  : option JS.error :=
  match es with
  | [] => None
  | e :: es' =>
      match check_include m e with
      | Some err => Some err
      | None => check_includes m es'
      end
  end.

(** The selected columns of a related record. *)
Definition project (e : IncludeEntry) (r : Z * Row) : Z * Row :=
  match e with
  | IncludeSpec _ attrs _ =>
      (r.1, mkRow (row_createdAt r.2) (row_updatedAt r.2)
              (filter (fun kv => kv.1 ∈ attrs) (row_values r.2)))
  | _ => r
  end.

Definition load_include (m : Model) (tb : Model -> gmap Z Row) (id : Z)
    (e : IncludeEntry) : list (string * list (Z * Row)) :=
  match include_target e with
  | Some m' => [(alias schema m m', map (project e) (related schema m m' tb id))]
  | None => []
  end.

Definition load (m : Model) (tb : Model -> gmap Z Row)
    (es : list IncludeEntry) (r : Z * Row) : Instance :=
  mkInstance m r.1 r.2 (List.concat (map (load_include m tb r.1) es)).

(** [Model.create(values)]: the new record holds the values of declared
    columns. Its primary key is the one the body names under [id], or else
    the next value of the counter; a key that is taken is refused with the
    error of the unique constraint, and so is an [id] the database cannot
    read. After an explicit key the counter moves past it (as MySQL and
    SQLite have it). A body that names [createdAt] or [updatedAt] is not
    covered: the time stamps are always the clock's. *)
Definition create (m : Model) (values : gmap string string) (s : Store)
  : completion Instance * Store :=
  match begin_call (CallCreate m values) s with
  | (Some e, s1) => (Throw e, s1)
  | (None, s1) =>
      let r := mkRow (clock s1) (clock s1) (column_values m values) in
      match values !! "id" with
      | None =>
          let id := autoinc s1 m in
          match tables s1 m !! id with
          | Some _ => (Throw (JS.Error "Validation error"), s1)
          | None =>
              (Normal (mkInstance m id r []),
               bump_autoinc m (set_table m (<[id := r]> (tables s1 m)) s1))
          end
      | Some p =>
          match pk_of_param schema p with
          | None => (Throw (JS.Error "Validation error"), s1)
          | Some id =>
              match tables s1 m !! id with
              | Some _ => (Throw (JS.Error "Validation error"), s1)
              | None =>
                  (Normal (mkInstance m id r []),
                   raise_autoinc m id
                     (set_table m (<[id := r]> (tables s1 m)) s1))
              end
          end
      end
  end.

(** [Model.findAndCountAll(options)]: the number of records of the model
    and the requested page of them, in the order asked for. *)
Definition findAndCountAll (m : Model) (o : FindOptions) (s : Store)
  : completion (Z * list Instance) * Store :=
  match begin_call (CallFindAndCountAll m o) s with
  | (Some e, s1) => (Throw e, s1)
  | (None, s1) =>
      let es := default [] (include o) in
      match check_includes m es with
      | Some e => (Throw e, s1)
      | None =>
          match row_count (limit o), row_count (offset o) with
          | Some l, Some off =>
              match order_rows (order o) (scan schema o (tables s1 m)) with
              | Throw e => (Throw e, s1)
              | Normal sorted =>
                  let page := take l (drop off sorted) in
                  (Normal (Z.of_nat (size (tables s1 m)),
                           map (load m (tables s1) es) page), s1)
              end
          | _, _ =>
              (Throw (JS.Error "LIMIT and OFFSET must be integers from 0 to 2^63 - 1"),
               s1)
          end
      end
  end.

(** [Model.findByPk(id, { include })]; the result [None] is [null], and
    so is the result for an [undefined] id. *)
Definition findByPk (m : Model) (id : option string)
    (inc : option IncludeEntry) (s : Store)
  : completion (option Instance) * Store :=
  match begin_call (CallFindByPk m id inc) s with
  | (Some e, s1) => (Throw e, s1)
  | (None, s1) =>
      let es := match inc with Some e => [e] | None => [] end in
      match check_includes m es with
      | Some e => (Throw e, s1)
      | None =>
          (Normal (load m (tables s1) es <$> lookup_pk m id s1), s1)
      end
  end.

(** [instance.update(values)]: merges the values of declared columns into
    the record; Sequelize sets neither the primary key nor [createdAt] of a
    stored record, and [updatedAt] is the clock's. *)
Definition update (i : Instance) (values : gmap string string) (s : Store)
  : completion Instance * Store :=
  match begin_call (CallUpdate (inst_model i) (inst_id i) values) s with
  | (Some e, s1) => (Throw e, s1)
  | (None, s1) =>
      let r := inst_row i in
      let m := inst_model i in
      let r' :=
        mkRow (row_createdAt r) (clock s1)
          (column_values m values ∪ row_values r) in
      (Normal (mkInstance m (inst_id i) r' (inst_included i)),
       set_table m (alter (fun _ => r') (inst_id i) (tables s1 m)) s1)
  end.

(** [instance.destroy()] *)
Definition destroy (i : Instance) (s : Store) : completion unit * Store :=
  match begin_call (CallDestroy (inst_model i) (inst_id i)) s with
  | (Some e, s1) => (Throw e, s1)
  | (None, s1) =>
      let m := inst_model i in
      (Normal tt, set_table m (delete (inst_id i) (tables s1 m)) s1)
  end.

End WithSchema.

End Storage.

(** ** Requests, responses and the handler monad *)

Module Http.
Import Storage.

(** [req]: what the handlers and the middleware read of a request. [path]
    holds the segments of the URL path that remain below the mount point. *)
Record Request := mkRequest {
  method : string;
  path : list string;
  headers : gmap string string;
  query : gmap string JS.qval;
  params : gmap string string;
  body : gmap string string;
  user : option (gmap string string)
}.

Record Meta := mkMeta {
  totalItems : Z;
  totalPages : JS.number;
  currentPage : JS.number;
  itemsPerPage : JS.number;
  sortOrder : string;
  includedRelations : string
}.

(** The bodies the application sends. *)
Inductive Body :=
| JsonRecord (record : Instance)
| JsonEnvelope (meta : Meta) (data : list Instance)
| JsonMessage (message : string)
| JsonError (error : string)
| Text (text : string)
| Allowed (methods : gset string)
    (** the reply to [OPTIONS]: the methods named in the [Allow] header
        and in the body (their order and separator depend on the version
        of Express) *).

(** [res]: the status code set so far and the responses sent, oldest
    first. *)
Record Res := mkRes {
  statusCode : Z;
  sent : list (Z * Body)
}.

Definition fresh_res : Res := mkRes 200 [].

Record World := mkWorld {
  store : Store;
  res : Res
}.

(** Computations over the world that may throw. *)
Definition M (A : Type) : Type := World -> completion A * World.

Definition ret {A} (a : A) : M A := fun w => (Normal a, w).

Definition bind {A B} (c : M A) (k : A -> M B) : M B :=
  fun w =>
    match c w with
    | (Normal a, w1) => k a w1
    | (Throw e, w1) => (Throw e, w1)
    end.

Definition throw {A} (e : JS.error) : M A := fun w => (Throw e, w).

(** [try { body } catch (err) { handler }] *)
Definition try_catch {A} (body : M A) (handler : JS.error -> M A) : M A :=
  fun w =>
    match body w with
    | (Normal a, w1) => (Normal a, w1)
    | (Throw e, w1) => handler e w1
    end.

(** [await] of a storage call. *)
Definition await {A} (op : Store -> completion A * Store) : M A :=
  fun w =>
    let '(r, s1) := op (store w) in (r, mkWorld s1 (res w)).

(** [res.status(code)] *)
Definition status (code : Z) : M unit :=
  fun w => (Normal tt, mkWorld (store w) (mkRes code (sent (res w)))).

(** [res.json(body)] *)
Definition json (b : Body) : M unit :=
  fun w =>
    (Normal tt,
     mkWorld (store w)
       (mkRes (statusCode (res w)) (sent (res w) ++ [(statusCode (res w), b)]))).

Definition statusText (code : Z) : string :=
  if code =? 401 then "Unauthorized"
  else if code =? 403 then "Forbidden"
  else if code =? 404 then "Not Found"
  else "".

(** [res.sendStatus(code)] *)
Definition sendStatus (code : Z) : M unit :=
  fun w =>
    (Normal tt,
     mkWorld (store w) (mkRes code (sent (res w) ++ [(code, Text (statusText code))]))).

(** The world once a response with the given status and body has been sent:
    the effect of [res.status(code)] followed by [res.json(body)]. *)
Definition replied (code : Z) (b : Body) (w : World) : World :=
  mkWorld (store w) (mkRes code (sent (res w) ++ [(code, b)])).

(** [res.send(body)] *)
Definition send (b : Body) : M unit := json b.

(** Runs a handler on a store with a fresh response object. *)
Definition serve {A} (c : M A) (s : Store) : completion A * World :=
  c (mkWorld s fresh_res).

End Http.

Declare Scope handler_scope.
Delimit Scope handler_scope with handler.
Notation "'let!' x ':=' c 'in' k" :=
  (Http.bind c (fun x => k))
  (at level 10, x name, c at level 100, k at level 200) : handler_scope.
Notation "'let!' ' p ':=' c 'in' k" :=
  (Http.bind c (fun x => match x with p => k end))
  (at level 10, p pattern, c at level 100, k at level 200) : handler_scope.
Notation "c ';;' k" :=
  (Http.bind c (fun _ => k))
  (at level 100, k at level 200, right associativity) : handler_scope.

(** ** The controllers *)

Module Controllers.
Import Storage Http.
Local Open Scope handler_scope.

(** The list query a [getAll] handler derives from [req.query]. *)
Definition build_include (validRelations : gmap string IncludeEntry)
    (includeParam : string) : list IncludeEntry :=
  foldl
    (fun (include : list IncludeEntry) relation =>
       let trimmedRelation := JS.trim relation in
       match JS.get_property validRelations trimmedRelation with
       | Some (JS.Own entry) => (include ++ [entry])%list
       | Some (JS.Inherited member) => (include ++ [IncludeProto member])%list
       | None => include
       end)
    [] (JS.split "," includeParam).

(** [includeParam.split(',').forEach(...)]: only a string has [split]. *)
Definition collect_include (validRelations : gmap string IncludeEntry)
    (includeParam : JS.qval) : M (list IncludeEntry) :=
  match includeParam with
  | JS.QStr s => ret (build_include validRelations s)
  | _ => throw (JS.TypeError "includeParam.split is not a function")
  end.

Definition includeParam_text (includeParam : JS.qval) : string :=
  JS.str_or (JS.ToString includeParam) "none".

Section WithSchema.
Variable schema : Schema.

(** *** The teacher controller
    ([src/controllers/teacher.controller.js], lines 32-230) *)

Definition createTeacher (req : Request) : M unit :=
  try_catch
    (let! teacher := await (create schema Teacher (body req)) in
     status 201 ;; json (JsonRecord teacher))
    (fun err => status 500 ;; json (JsonError (JS.message err))).

Definition teacher_validRelations : gmap string IncludeEntry :=
  {[ "Courses" := IncludeSpec Course ["id"; "title"; "description"] None;
     "Students" := IncludeSpec Student ["id"; "name"] (Some []) ]}.

Definition getAllTeachers (req : Request) : M unit :=
  let limit := JS.num_or (JS.parseInt (query req !! "limit")) 10 in
  let page := JS.num_or (JS.parseInt (query req !! "page")) 1 in
  let sortOrder :=
    if JS.strict_eq_string (query req !! "sort") "asc" then "ASC" else "DESC" in
  let includeParam := JS.or_empty (query req !! "include") in
  let! include := collect_include teacher_validRelations includeParam in
  try_catch
    (let! '(count, rows) :=
       await (findAndCountAll schema Teacher
                (mkFindOptions
                   (if bool_decide (include = []) then None else Some include)
                   limit
                   (JS.mul (JS.sub page 1) limit)
                   [("createdAt", sortOrder)]
                   true)) in
     json (JsonEnvelope
             (mkMeta count (JS.ceil_div count limit) page limit sortOrder
                (includeParam_text includeParam))
             rows))
    (fun err => status 500 ;; json (JsonError (JS.message err))).

Definition getTeacherById (req : Request) : M unit :=
  try_catch
    (let! teacher :=
       await (findByPk schema Teacher (params req !! "id")
                (Some (IncludeModel Course))) in
     match teacher with
     | None => status 404 ;; json (JsonMessage "Not found")
     | Some teacher => json (JsonRecord teacher)
     end)
    (fun err => status 500 ;; json (JsonError (JS.message err))).

Definition updateTeacher (req : Request) : M unit :=
  try_catch
    (let! teacher := await (findByPk schema Teacher (params req !! "id") None) in
     match teacher with
     | None => status 404 ;; json (JsonMessage "Not found")
     | Some teacher =>
         let! teacher := await (update schema teacher (body req)) in
         json (JsonRecord teacher)
     end)
    (fun err => status 500 ;; json (JsonError (JS.message err))).

Definition deleteTeacher (req : Request) : M unit :=
  try_catch
    (let! teacher := await (findByPk schema Teacher (params req !! "id") None) in
     match teacher with
     | None => status 404 ;; json (JsonMessage "Not found")
     | Some teacher =>
         await (destroy teacher) ;;
         json (JsonMessage "Deleted")
     end)
    (fun err => status 500 ;; json (JsonError (JS.message err))).

(** *** The student controller ([src/middleware/auth.js], lines 46-244) *)

Definition createStudent (req : Request) : M unit :=
  try_catch
    (let! student := await (create schema Student (body req)) in
     status 201 ;; json (JsonRecord student))
    (fun err => status 500 ;; json (JsonError (JS.message err))).

Definition student_validRelations : gmap string IncludeEntry :=
  {[ "Courses" := IncludeSpec Course ["id"; "title"; "description"] (Some []);
     "Teacher" := IncludeSpec Teacher ["id"; "name"; "email"] None ]}.

Definition getAllStudents (req : Request) : M unit :=
  let limit := JS.num_or (JS.parseInt (query req !! "limit")) 10 in
  let page := JS.num_or (JS.parseInt (query req !! "page")) 1 in
  let sortOrder :=
    if JS.strict_eq_string (query req !! "sort") "asc" then "ASC" else "DESC" in
  let includeParam := JS.or_empty (query req !! "include") in
  let! include := collect_include student_validRelations includeParam in
  try_catch
    (let! '(count, rows) :=
       await (findAndCountAll schema Student
                (mkFindOptions
                   (if bool_decide (include = []) then None else Some include)
                   limit
                   (JS.mul (JS.sub page 1) limit)
                   [("createdAt", sortOrder)]
                   true)) in
     json (JsonEnvelope
             (mkMeta count (JS.ceil_div count limit) page limit sortOrder
                (includeParam_text includeParam))
             rows))
    (fun err => status 500 ;; json (JsonError (JS.message err))).

Definition getStudentById (req : Request) : M unit :=
  try_catch
    (let! student :=
       await (findByPk schema Student (params req !! "id")
                (Some (IncludeModel Course))) in
     match student with
     | None => status 404 ;; json (JsonMessage "Not found")
     | Some student => json (JsonRecord student)
     end)
    (fun err => status 500 ;; json (JsonError (JS.message err))).

Definition updateStudent (req : Request) : M unit :=
  try_catch
    (let! student := await (findByPk schema Student (params req !! "id") None) in
     match student with
     | None => status 404 ;; json (JsonMessage "Not found")
     | Some student =>
         let! student := await (update schema student (body req)) in
         json (JsonRecord student)
     end)
    (fun err => status 500 ;; json (JsonError (JS.message err))).

Definition deleteStudent (req : Request) : M unit :=
  try_catch
    (let! student := await (findByPk schema Student (params req !! "id") None) in
     match student with
     | None => status 404 ;; json (JsonMessage "Not found")
     | Some student =>
         await (destroy student) ;;
         json (JsonMessage "Deleted")
     end)
    (fun err => status 500 ;; json (JsonError (JS.message err))).

(** The two resources whose controllers are part of the sources, and the
    handlers of each. *)
Inductive Resource := Students | Teachers.

Definition model_of (r : Resource) : Model :=
  match r with Students => Student | Teachers => Teacher end.

Definition validRelations_of (r : Resource) : gmap string IncludeEntry :=
  match r with
  | Students => student_validRelations
  | Teachers => teacher_validRelations
  end.

Definition create_of (r : Resource) : Request -> M unit :=
  match r with Students => createStudent | Teachers => createTeacher end.

Definition getAll_of (r : Resource) : Request -> M unit :=
  match r with Students => getAllStudents | Teachers => getAllTeachers end.

Definition getById_of (r : Resource) : Request -> M unit :=
  match r with Students => getStudentById | Teachers => getTeacherById end.

Definition update_of (r : Resource) : Request -> M unit :=
  match r with Students => updateStudent | Teachers => updateTeacher end.

Definition delete_of (r : Resource) : Request -> M unit :=
  match r with Students => deleteStudent | Teachers => deleteTeacher end.

End WithSchema.

End Controllers.

(** ** The authentication middleware ([src/middleware/auth.js], lines 1-17) *)

Module Auth.
Import Storage Http.
Local Open Scope handler_scope.

(** [req.user = user] *)
Definition set_user (u : gmap string string) (req : Request) : Request :=
  mkRequest (method req) (path req) (headers req) (query req) (params req)
    (body req) (Some u).

Section WithJwt.
(** [process.env.JWT_SECRET] *)
Variable env_JWT_SECRET : option string.

(** The check [jsonwebtoken] makes of a non-empty token string against a
    secret: the decoded claims, or [None] when the token is malformed,
    expired or wrongly signed. *)
Variable jwt_decode : string -> string -> option (gmap string string).

Definition JWT_SECRET : string :=
  match env_JWT_SECRET with
  | Some s => JS.str_or s "e05120********************4ac864"
  | None => "e05120********************4ac864"
  end.

(** [jwt.verify(token, secret, callback)]: the arguments the callback
    receives, [inl err] or [inr user]. An [undefined] or empty token is
    refused before any decoding. *)
Definition jwt_verify (token : option string) (secret : string)
  : JS.error + gmap string string :=
  match token with
  | None => inl (JS.Error "jwt must be provided")
  | Some t =>
      if String.eqb t "" then inl (JS.Error "jwt must be provided")
      else match jwt_decode t secret with
           | Some user => inr user
           | None => inl (JS.Error "invalid token")
           end
  end.

(** The middleware; its result is [Some req'] when it calls [next()],
    with [req'] the request as the next handler sees it, and [None] when
    it does not. *)
Definition authenticateJWT (req : Request) : M (option Request) :=
  let authHeader := headers req !! "authorization" in
  if JS.truthy authHeader then
    let token := JS.split " " (default "" authHeader) !! 1%nat in
    match jwt_verify token JWT_SECRET with
    | inl err => sendStatus 403 ;; ret None
    | inr user => ret (Some (set_user user req))
    end
  else sendStatus 401 ;; ret None.

End WithJwt.

End Auth.

(** ** The composition layer
    ([src/controllers/teacher.controller.js], lines 231-259)

    An application is a list of layers, tried in the order of registration.
    A router answers an [OPTIONS] request that none of its routes handles
    with the methods of the routes whose pattern matches the path. *)

Module App.
Import Storage Http Controllers Auth.
Local Open Scope handler_scope.

(** A function usable with [app.use]: [Some req'] when it calls [next()]. *)
Definition Middleware : Type := Request -> M (option Request).

Inductive Segment :=
| Lit (s : string)
| Param (name : string).

(** A route of a router: [router.METHOD(pattern, handler)]. *)
Record Route := mkRoute {
  route_method : string;
  route_pattern : list Segment;
  route_handler : Request -> M unit
}.

Inductive Layer :=
| use (mount : list string) (stack : list Middleware)
    (** [app.use(mount, ...stack)] *)
| verb (r : Route)
    (** [app.METHOD(pattern, handler)] *).

Definition lower (c : ascii) : ascii :=
  let n := nat_of_ascii c in
  if (65 <=? n)%nat && (n <=? 90)%nat then ascii_of_nat (n + 32) else c.

Fixpoint toLowerCase (s : string) : string :=
  match s with
  | EmptyString => EmptyString
  | String c s' => String (lower c) (toLowerCase s')
  end.

(** Routing is case-insensitive (the default of Express): a path segment
    matches a lower-case literal when its lower-case form equals it. *)
Definition seg_matches (lit seg : string) : bool :=
  String.eqb (toLowerCase seg) lit.

(** The part of the path below a mount point. *)
Fixpoint strip_prefix (mount path : list string) : option (list string) :=
  match mount, path with
  | [], _ => Some path
  | m :: mount', seg :: path' =>
      if seg_matches m seg then strip_prefix mount' path' else None
  | _ :: _, [] => None
  end.

(** The parameters bound when a pattern matches a whole path. *)
Fixpoint match_pattern (pat : list Segment) (path : list string)
  : option (gmap string string) :=
  match pat, path with
  | [], [] => Some ∅
  | Lit s :: pat', seg :: path' =>
      if seg_matches s seg then match_pattern pat' path' else None
  | Param name :: pat', seg :: path' =>
      ps ← match_pattern pat' path'; Some (<[name := seg]> ps)
  | _, _ => None
  end.

(** A [GET] route also answers [HEAD]. *)
Definition method_matches (route_m req_m : string) : bool :=
  String.eqb req_m route_m
  || (String.eqb route_m "GET" && String.eqb req_m "HEAD").

Definition match_route (r : Route) (req : Request)
  : option (gmap string string) :=
  if method_matches (route_method r) (method req)
  then match_pattern (route_pattern r) (path req)
  else None.

Fixpoint find_route (routes : list Route) (req : Request)
  : option (Route * gmap string string) :=
  match routes with
  | [] => None
  | r :: routes' =>
      match match_route r req with
      | Some ps => Some (r, ps)
      | None => find_route routes' req
      end
  end.

Definition set_params (ps : gmap string string) (req : Request) : Request :=
  mkRequest (method req) (path req) (headers req) (query req) ps (body req)
    (user req).

Definition set_path (p : list string) (req : Request) : Request :=
  mkRequest (method req) p (headers req) (query req) (params req) (body req)
    (user req).

(** The methods a route lists in the reply to [OPTIONS]: a [GET] route
    also answers [HEAD]. *)
Definition route_options (r : Route) : list string :=
  if String.eqb (route_method r) "GET" then ["GET"; "HEAD"]
  else [route_method r].

(** [appendMethods]: adds the methods that are not listed yet. *)
Definition append_methods (allow methods : list string) : list string :=
  foldl
    (fun acc m => if bool_decide (m ∈ acc) then acc else (acc ++ [m])%list)
    allow methods.

(** What a route that does not handle the request adds to the methods
    allowed: its own, when the request is an [OPTIONS] request and the
    pattern matches the path. *)
Definition allow_route (r : Route) (req : Request) (allow : list string)
  : list string :=
  if String.eqb (method req) "OPTIONS" then
    match match_pattern (route_pattern r) (path req) with
    | Some _ => append_methods allow (route_options r)
    | None => allow
    end
  else allow.

Fixpoint allowed (routes : list Route) (req : Request) (allow : list string)
  : list string :=
  match routes with
  | [] => allow
  | r :: routes' => allowed routes' req (allow_route r req allow)
  end.

(** [sendOptionsResponse]: the methods allowed, as the [Allow] header and
    as the body. *)
Definition send_options (allow : list string) : M unit :=
  send (Allowed (list_to_set allow)).

(** An [express.Router()] used as a middleware: the first matching route
    handles the request; without one the router answers an [OPTIONS]
    request whose path some route matches, and calls [next()] otherwise. *)
Definition router (routes : list Route) : Middleware :=
  fun req =>
    match find_route routes req with
    | Some (r, ps) => route_handler r (set_params ps req) ;; ret None
    | None =>
        match allowed routes req [] with
        | [] => ret (Some req)
        | allow => send_options allow ;; ret None
        end
    end.

Fixpoint run_stack (stack : list Middleware) (req : Request)
  : M (option Request) :=
  match stack with
  | [] => ret (Some req)
  | f :: stack' =>
      let! r := f req in
      match r with
      | Some req' => run_stack stack' req'
      | None => ret None
      end
  end.

(** The answer of Express when no layer handles the request. *)
Definition finalhandler (req : Request) : M unit :=
  status 404 ;; send (Text ("Cannot " ++ method req)).

(** The layers are tried in the order of registration; [allow] gathers the
    methods of the application's own routes for the reply to [OPTIONS]. *)
Fixpoint dispatch (layers : list Layer) (allow : list string) (req : Request)
  : M unit :=
  match layers with
  | [] =>
      match allow with
      | [] => finalhandler req
      | _ => send_options allow
      end
  | use mount stack :: layers' =>
      match strip_prefix mount (path req) with
      | Some sub =>
          let! r := run_stack stack (set_path sub req) in
          match r with
          | Some req' => dispatch layers' allow (set_path (path req) req')
          | None => ret tt
          end
      | None => dispatch layers' allow req
      end
  | verb r :: layers' =>
      match match_route r req with
      | Some ps => route_handler r (set_params ps req)
      | None => dispatch layers' (allow_route r req allow) req
      end
  end.

(** The application, [app.handle]. *)
Definition handle (layers : list Layer) (req : Request) : M unit :=
  dispatch layers [] req.

(** [express.json()]: the request reaches the handlers with its body
    parsed; [body] holds the parsed body. *)
Definition express_json : Middleware := fun req => ret (Some req).

Definition welcome (req : Request) : M unit :=
  send (Text "Welcome to School API!").

Section WithEnvironment.
Variable schema : Schema.
Variable env_JWT_SECRET : option string.
Variable jwt_decode : string -> string -> option (gmap string string).

(** [config/swagger.js], [routes/course.routes.js] and
    [routes/auth.routes.js] are not part of the sources. *)
Variables serveSwagger setupSwagger : Middleware.
Variables courseRoutes authRoutes : list Route.

(** Modelled from the spec: [routes/student.routes.js] is not part of the
    sources; section 6 lists the five routes of the resource and the
    handler of each. *)
Definition studentRoutes : list Route :=
  [ mkRoute "POST" [] (createStudent schema);
    mkRoute "GET" [] (getAllStudents schema);
    mkRoute "GET" [Param "id"] (getStudentById schema);
    mkRoute "PUT" [Param "id"] (updateStudent schema);
    mkRoute "DELETE" [Param "id"] (deleteStudent schema) ].

(** Modelled from the spec: [routes/teacher.routes.js] is not part of the
    sources; the routes are those of section 6, for teachers. *)
Definition teacherRoutes : list Route :=
  [ mkRoute "POST" [] (createTeacher schema);
    mkRoute "GET" [] (getAllTeachers schema);
    mkRoute "GET" [Param "id"] (getTeacherById schema);
    mkRoute "PUT" [Param "id"] (updateTeacher schema);
    mkRoute "DELETE" [Param "id"] (deleteTeacher schema) ].

Definition app : list Layer :=
  [ use [] [express_json];
    use ["docs"] [serveSwagger; setupSwagger];
    use ["students"] [router studentRoutes];
    use ["courses"] [router courseRoutes];
    use ["teachers"] [router teacherRoutes];
    use ["auth"] [router authRoutes];
    use ["courses"] [authenticateJWT env_JWT_SECRET jwt_decode; router courseRoutes];
    use ["students"] [authenticateJWT env_JWT_SECRET jwt_decode; router studentRoutes];
    use ["teachers"] [authenticateJWT env_JWT_SECRET jwt_decode; router teacherRoutes];
    verb (mkRoute "GET" [] welcome) ].

(** The request is for a route of the router mounted at [mount]. *)
Definition routed_at (mount : list string) (routes : list Route)
    (req : Request) : bool :=
  match strip_prefix mount (path req) with
  | Some sub =>
      match find_route routes (set_path sub req) with
      | Some _ => true
      | None => false
      end
  | None => false
  end.

(** The request is for a route of one of the three resource routers. *)
Definition resource_routed (req : Request) : bool :=
  routed_at ["students"] studentRoutes req
  || routed_at ["courses"] courseRoutes req
  || routed_at ["teachers"] teacherRoutes req.

End WithEnvironment.

(** The request with its Authorization header replaced by [h], or removed
    when [h] is [None]. *)
Definition with_authorization (h : option string) (req : Request) : Request :=
  mkRequest (method req) (path req)
    (match h with
     | Some v => <["authorization" := v]> (headers req)
     | None => delete "authorization" (headers req)
     end)
    (query req) (params req) (body req) (user req).

(** A handler whose behaviour does not depend on the Authorization header. *)
Definition header_blind (h : Request -> M unit) : Prop :=
  forall req a, h (with_authorization a req) = h req.

End App.

(** ** A concrete environment, for the examples *)

Module Fixture.
Import Storage Http Controllers Auth App.

Fixpoint all_digits (s : string) : bool :=
  match s with
  | EmptyString => true
  | String c s' =>
      match JS.digit_value 10 c with
      | Some _ => all_digits s'
      | None => false
      end
  end.

(** A database that reads a primary key in a non-empty string of decimal
    digits and in nothing else. *)
Definition decimal_pk (p : string) : option Z :=
  if all_digits p then JS.parse_digits 10 p 0 false else None.

(** Students and courses are associated both ways, and so are teachers and
    courses; no record is related to another. The columns of [User] are
    those of [src/models/user.model.js]. *)
Definition schema : Schema :=
  mkSchema
    (fun m m' =>
       match m, m' with
       | Student, Course | Course, Student
       | Teacher, Course | Course, Teacher => true
       | _, _ => false
       end)
    (fun _ m' => modelName m' ++ "s")
    (fun _ _ _ _ => [])
    (fun m =>
       match m with
       | User => ["name"; "email"; "password"]
       | Student => ["name"]
       | Teacher => ["name"; "department"]
       | Course => ["title"; "description"]
       end)
    decimal_pk
    (fun _ => map_to_list).

(** A decoder that accepts the single token ["good.token"]. *)
Definition jwt_decode (token secret : string) : option (gmap string string) :=
  if String.eqb token "good.token" then Some {[ "sub" := "1" ]} else None.

Definition ada : Row := mkRow 100 100 {[ "name" := "Ada" ]}.
Definition bob : Row := mkRow 300 300 {[ "name" := "Bob" ]}.
Definition cyd : Row := mkRow 200 200 {[ "name" := "Cyd" ]}.

Definition people : gmap Z Row := {[ 1 := ada; 2 := bob; 3 := cyd ]}.

Definition store0 : Store :=
  mkStore (fun m => match m with Student | Teacher => people | _ => ∅ end)
    (fun _ => 4) 1000 [] [].

Definition request (meth : string) (p : list string)
    (auth : option string) (q : gmap string JS.qval)
    (ps : gmap string string) : Request :=
  mkRequest meth p
    (match auth with Some h => {[ "authorization" := h ]} | None => ∅ end)
    q ps ∅ None.

Definition pass : Middleware := fun req => ret (Some req).

(** [GET /students] with the header [Authorization:] (an empty value). *)
Definition empty_header_request : Request :=
  request "GET" [] (Some "") ∅ ∅.

(** [GET /students] with [Authorization: Bearer] (a single word). *)
Definition one_word_request : Request :=
  request "GET" [] (Some "Bearer") ∅ ∅.

Definition good_request : Request :=
  request "GET" [] (Some "Bearer good.token") ∅ ∅.

Definition bad_request : Request :=
  request "GET" [] (Some "Bearer forged") ∅ ∅.

Definition anonymous_request : Request :=
  request "GET" [] None ∅ ∅.


(** [GET /teachers?include=constructor] *)
Definition constructor_request : Request :=
  request "GET" [] None {[ "include" := JS.QStr "constructor" ]} ∅.

(** [GET /teachers?include=Courses&include=Students] *)
Definition repeated_include_request : Request :=
  request "GET" [] None
    {[ "include" := JS.QArr [JS.QStr "Courses"; JS.QStr "Students"] ]} ∅.

(** [DELETE /teachers/2] and [GET /teachers/2], as the router hands them to
    the handler. *)
Definition id2_request : Request :=
  request "DELETE" [] None ∅ {[ "id" := "2" ]}.

Definition id9_request : Request :=
  request "DELETE" [] None ∅ {[ "id" := "9" ]}.



(** [GET /teachers?limit=0&page=abc] *)
Definition zero_limit_request : Request :=
  request "GET" [] None {[ "limit" := JS.QStr "0"; "page" := JS.QStr "abc" ]} ∅.

Definition application : list Layer :=
  app schema None jwt_decode pass pass [] [].

(** [PATCH /students], a path of the students resource that matches none of
    its routes. *)
Definition patch_students (auth : option string) : Request :=
  request "PATCH" ["students"] auth ∅ ∅.

(** [GET /Teachers/2] *)
Definition get_teacher2 (auth : option string) : Request :=
  request "GET" ["Teachers"; "2"] auth ∅ ∅.

End Fixture.

(** ** The quantities the list handlers derive from a request *)

Module ListQuery.
Import Storage Http Controllers.

(** The effective [limit], [page] and [sortOrder] of a list request. *)
Definition limit_of (req : Request) : JS.number :=
  JS.num_or (JS.parseInt (query req !! "limit")) 10.

Definition page_of (req : Request) : JS.number :=
  JS.num_or (JS.parseInt (query req !! "page")) 1.

(** The [offset] of the query: [(page - 1) * limit], in doubles. *)
Definition offset_of (req : Request) : JS.number :=
  JS.mul (JS.sub (page_of req) 1) (limit_of req).

Definition sortOrder_of (req : Request) : string :=
  if JS.strict_eq_string (query req !! "sort") "asc" then "ASC" else "DESC".

(** The options a list handler gives to [findAndCountAll] when its
    [include] parameter is the string [raw]. *)
Definition options_of (validRelations : gmap string IncludeEntry)
    (req : Request) (raw : string) : FindOptions :=
  let include := build_include validRelations raw in
  mkFindOptions
    (if bool_decide (include = []) then None else Some include)
    (limit_of req)
    (offset_of req)
    [("createdAt", sortOrder_of req)]
    true.

(** The [meta] of the envelope for a count of [count] records. *)
Definition meta_of (req : Request) (raw : string) (count : Z) : Meta :=
  mkMeta count (JS.ceil_div count (limit_of req)) (page_of req) (limit_of req)
    (sortOrder_of req) (JS.str_or raw "none").


(** What one comma-separated element of the [include] parameter adds to the
    query's [include]. *)
Definition selected (validRelations : gmap string IncludeEntry)
    (relation : string) : list IncludeEntry :=
  match JS.get_property validRelations (JS.trim relation) with
  | Some (JS.Own entry) => [entry]
  | Some (JS.Inherited member) => [IncludeProto member]
  | None => []
  end.

(** The request without its [include] parameter. *)
Definition without_include (req : Request) : Request :=
  mkRequest (method req) (path req) (headers req)
    (delete "include" (query req)) (params req) (body req) (user req).





(** The body names declared columns only, and none of the attributes
    Sequelize manages itself. *)
Definition plain_body (schema : Schema) (m : Model)
    (values : gmap string string) : Prop :=
  map_Forall
    (fun f _ => f ∈ columns schema m /\ f ∉ ["id"; "createdAt"; "updatedAt"])
    values.

End ListQuery.

(** ** Vocabulary for the further properties *)

Module Frame.
Import Storage.

(** Two stores hold the same data: tables, counters and clock. *)
Definition same_data (s s' : Store) : Prop :=
  tables s' = tables s /\ autoinc s' = autoinc s /\ clock s' = clock s.

End Frame.

Module Text.

(** The string consists of white space only. *)
Fixpoint all_space (s : string) : bool :=
  match s with
  | EmptyString => true
  | String c s' => JS.isWhiteSpace c && all_space s'
  end.

(** The character occurs in the string. *)
Fixpoint has_char (c : ascii) (s : string) : bool :=
  match s with
  | EmptyString => false
  | String c' s' => Ascii.eqb c' c || has_char c s'
  end.

End Text.

(** Stores and requests for the examples of the further properties. *)
Module Scenario.
Import Storage Http.

Definition lost : JS.error := JS.Error "connection lost".


(** A store whose second call fails. *)
Definition failing_write_store : Store :=
  mkStore (tables Fixture.store0) (autoinc Fixture.store0)
    (clock Fixture.store0) [None; Some lost] [].

(** [POST /teachers] with the body [{"name": "Dee"}]. *)
Definition create_request : Request :=
  mkRequest "POST" [] ∅ ∅ ∅ {[ "name" := "Dee" ]} None.

(** [GET /teachers/4] *)
Definition id4_request : Request :=
  Fixture.request "GET" [] None ∅ {[ "id" := "4" ]}.

(** [PUT /teachers/2] with the body [{"department": "Maths"}]. *)
Definition update_request : Request :=
  mkRequest "PUT" [] ∅ ∅ {[ "id" := "2" ]} {[ "department" := "Maths" ]} None.


(** [POST /teachers] with the body
    [{"id": "77", "name": "Eve", "nickname": "E"}], where [nickname] is not a
    column. *)
Definition create_with_id_request : Request :=
  mkRequest "POST" [] ∅ ∅ ∅
    {[ "id" := "77"; "name" := "Eve"; "nickname" := "E" ]} None.

(** [POST /teachers] with the body [{"id": "2", "name": "Eve"}]: the
    identifier is taken. *)
Definition create_taken_id_request : Request :=
  mkRequest "POST" [] ∅ ∅ ∅ {[ "id" := "2"; "name" := "Eve" ]} None.

(** [GET /teachers?limit=99999999999999999999999] *)
Definition huge_limit_request : Request :=
  Fixture.request "GET" [] None
    {[ "limit" := JS.QStr "99999999999999999999999" ]} ∅.


End Scenario.

(** * Specification *)

(** ** The authentication middleware *)

Section AuthSpec.
Import Storage Http Auth.

Variable env_JWT_SECRET : option string.
Variable jwt_decode : string -> string -> option (gmap string string).

Local Abbreviation authenticate := (authenticateJWT env_JWT_SECRET jwt_decode).
Local Abbreviation verify token :=
  (jwt_verify jwt_decode token (JWT_SECRET env_JWT_SECRET)).

(** The world after [res.sendStatus(code)]. *)
Local Abbreviation answered code w := (replied code (Text (statusText code)) w).

Lemma truthy_false (v : option string) :
  JS.truthy v = false <-> v = None \/ v = Some "".
Proof.
  destruct v as [s|]; simpl.
  - rewrite negb_false_iff, String.eqb_eq. split.
    + intros ->. by right.
    + intros [?|[= ->]]; done.
  - split; [by left | done].
Qed.

Lemma truthy_true (v : string) : v <> "" -> JS.truthy (Some v) = true.
Proof.
  intros Hv. simpl. apply negb_true_iff, String.eqb_neq, Hv.
Qed.

Lemma authenticate_falsy (req : Request) (w : World) :
  JS.truthy (headers req !! "authorization") = false ->
  authenticate req w = (Normal None, answered 401 w).
Proof.
  intros Hf. unfold authenticateJWT. rewrite Hf. reflexivity.
Qed.

Lemma authenticate_truthy (req : Request) (w : World) (v : string) :
  headers req !! "authorization" = Some v -> v <> "" ->
  authenticate req w =
    match verify (JS.split " " v !! 1%nat) with
    | inl _ => (Normal None, answered 403 w)
    | inr u => (Normal (Some (set_user u req)), w)
    end.
Proof.
  intros Hh Hv. unfold authenticateJWT. rewrite Hh, (truthy_true v Hv).
  simpl. destruct (verify _); reflexivity.
Qed.

(** C2 (amended). [authenticateJWT]: when the Authorization header is
    absent or empty the middleware answers 401 and does not call [next];
    when the header is present and not empty and the verification of its
    second space-delimited segment against the secret fails, it answers 403
    and does not call [next]; when that verification succeeds, it sends
    nothing, attaches the decoded claims to the request as [req.user] and
    calls [next]. *)
Theorem authenticateJWT_contract (req : Request) (w : World) :
  (headers req !! "authorization" = None \/
   headers req !! "authorization" = Some "" ->
   authenticate req w = (Normal None, answered 401 w)) /\
  (forall v err,
     headers req !! "authorization" = Some v -> v <> "" ->
     verify (JS.split " " v !! 1%nat) = inl err ->
     authenticate req w = (Normal None, answered 403 w)) /\
  (forall v claims,
     headers req !! "authorization" = Some v -> v <> "" ->
     verify (JS.split " " v !! 1%nat) = inr claims ->
     authenticate req w = (Normal (Some (set_user claims req)), w) /\
     user (set_user claims req) = Some claims).
Proof.
  split; [|split].
  - intros H. apply authenticate_falsy, truthy_false, H.
  - intros v err Hh Hv Hverify.
    rewrite (authenticate_truthy req w v Hh Hv), Hverify. reflexivity.
  - intros v claims Hh Hv Hverify.
    rewrite (authenticate_truthy req w v Hh Hv), Hverify. done.
Qed.

Lemma verify_undefined : exists err, verify None = inl err.
Proof. eexists. reflexivity. Qed.

(** C9 (amended). A request whose Authorization header is present and not
    empty but has no second space-delimited segment still has the
    [undefined] segment verified and is answered 403, with [next] not
    called; and the middleware answers 401 exactly when the header is
    absent or empty. *)
Theorem authenticateJWT_no_token (req : Request) (w : World) :
  (forall v,
     headers req !! "authorization" = Some v -> v <> "" ->
     JS.split " " v !! 1%nat = None ->
     authenticate req w = (Normal None, answered 403 w)) /\
  (sent (res (authenticate req w).2) =
     (sent (res w) ++ [(401, Text "Unauthorized")])%list
   <-> headers req !! "authorization" = None \/
       headers req !! "authorization" = Some "").
Proof.
  split.
  - intros v Hh Hv Hseg.
    rewrite (authenticate_truthy req w v Hh Hv), Hseg. reflexivity.
  - split.
    + intros Hsent.
      destruct (headers req !! "authorization") as [v|] eqn:Hh; [|by left].
      destruct (decide (v = "")) as [->|Hv]; [by right|].
      exfalso. rewrite (authenticate_truthy req w v Hh Hv) in Hsent.
      destruct (verify _); simpl in Hsent.
      * apply app_inv_head in Hsent. discriminate.
      * apply (f_equal List.length) in Hsent. rewrite length_app in Hsent.
        simpl in Hsent. lia.
    + intros H. rewrite authenticate_falsy by (apply truthy_false, H).
      reflexivity.
Qed.

End AuthSpec.

Import Storage Http Auth.

Lemma authenticateJWT_contract_witness :
  serve (authenticateJWT None Fixture.jwt_decode Fixture.anonymous_request)
    Fixture.store0
  = (Normal None,
     replied 401 (Text "Unauthorized") (mkWorld Fixture.store0 fresh_res)) /\
  serve (authenticateJWT None Fixture.jwt_decode Fixture.bad_request)
    Fixture.store0
  = (Normal None,
     replied 403 (Text "Forbidden") (mkWorld Fixture.store0 fresh_res)) /\
  serve (authenticateJWT None Fixture.jwt_decode Fixture.good_request)
    Fixture.store0
  = (Normal (Some (set_user {[ "sub" := "1" ]} Fixture.good_request)),
     mkWorld Fixture.store0 fresh_res).
Proof.
  split; [|split].
  - apply (authenticateJWT_contract None Fixture.jwt_decode
             Fixture.anonymous_request).
    left. reflexivity.
  - apply (proj1 (proj2 (authenticateJWT_contract None Fixture.jwt_decode
                           Fixture.bad_request _))
             "Bearer forged" (JS.Error "invalid token"));
      [reflexivity | discriminate | reflexivity].
  - apply (proj2 (proj2 (authenticateJWT_contract None Fixture.jwt_decode
                           Fixture.good_request _))
             "Bearer good.token" {[ "sub" := "1" ]});
      [reflexivity | discriminate | reflexivity].
Defined.

(** C2 as stated fails: the header [Authorization:] is present, its second
    segment is [undefined] and fails verification, and the answer is 401, not
    403. *)
Lemma authenticateJWT_empty_header_not_403 :
  ~ (headers Fixture.empty_header_request !! "authorization" = Some "" ->
     jwt_verify Fixture.jwt_decode (JS.split " " "" !! 1%nat) (JWT_SECRET None)
     = inl (JS.Error "jwt must be provided") ->
     serve (authenticateJWT None Fixture.jwt_decode Fixture.empty_header_request)
       Fixture.store0
     = (Normal None,
        replied 403 (Text "Forbidden") (mkWorld Fixture.store0 fresh_res))).
Proof.
  intros H. specialize (H eq_refl eq_refl). vm_compute in H. discriminate H.
Qed.

Lemma authenticateJWT_no_token_witness :
  serve (authenticateJWT None Fixture.jwt_decode Fixture.one_word_request)
    Fixture.store0
  = (Normal None,
     replied 403 (Text "Forbidden") (mkWorld Fixture.store0 fresh_res)) /\
  sent (res (serve (authenticateJWT None Fixture.jwt_decode
                      Fixture.anonymous_request) Fixture.store0).2)
  = [(401, Text "Unauthorized")].
Proof.
  split.
  - apply (proj1 (authenticateJWT_no_token None Fixture.jwt_decode
                    Fixture.one_word_request _) "Bearer");
      [reflexivity | discriminate | reflexivity].
  - apply (proj2 (authenticateJWT_no_token None Fixture.jwt_decode
                    Fixture.anonymous_request (mkWorld Fixture.store0 fresh_res))).
    left. reflexivity.
Defined.

(** C9 as stated fails: with the header [Authorization:] the answer is 401
    although the header is not absent. *)
Lemma authenticateJWT_401_header_present :
  ~ (sent (res (serve (authenticateJWT None Fixture.jwt_decode
                         Fixture.empty_header_request) Fixture.store0).2)
     = [(401, Text "Unauthorized")] ->
     headers Fixture.empty_header_request !! "authorization" = None).
Proof.
  intros H. specialize (H eq_refl). vm_compute in H. discriminate H.
Qed.

(** ** The persistence layer *)

#[global] Instance createdAt_le_trans : Transitive Storage.createdAt_le.
Proof. unfold Storage.createdAt_le. intros x y z. lia. Qed.
#[global] Instance createdAt_le_total : Total Storage.createdAt_le.
Proof. unfold Storage.createdAt_le. intros x y. lia. Qed.
#[global] Instance createdAt_ge_trans : Transitive Storage.createdAt_ge.
Proof. unfold Storage.createdAt_ge. intros x y z. lia. Qed.
#[global] Instance createdAt_ge_total : Total Storage.createdAt_ge.
Proof. unfold Storage.createdAt_ge. intros x y. lia. Qed.

Section StorageFacts.
Import Storage Http Controllers ListQuery.

Variable schema : Schema.

Lemma begin_call_healthy (c : Call) (s : Store) :
  healthy s -> begin_call c s = (None, record_call c [] s).
Proof. unfold healthy, begin_call. intros ->. reflexivity. Qed.

Lemma healthy_record_call (c : Call) (s : Store) :
  healthy (record_call c [] s).
Proof. reflexivity. Qed.





(** The sort keeps a sorted list as it is: whatever order the database
    gives to records with equal creation times, some scan yields it. *)
Lemma sort_rows_sorted {A} (R : relation A) `{!RelDecision R} (l : list A) :
  StronglySorted R l -> sort_rows R l = l.
Proof.
  induction l as [|x l IH]; simpl; intros Hs; [done|].
  apply StronglySorted_inv in Hs as [Hl Hx]. rewrite (IH Hl).
  destruct l as [|y l]; simpl; [done|].
  apply Forall_cons in Hx as [Hxy _]. by rewrite decide_True.
Qed.










Lemma check_includes_nil (m : Model) : check_includes schema m [] = None.
Proof. reflexivity. Qed.

Lemma findByPk_healthy (m : Model) (id : option string)
    (inc : option IncludeEntry) (s : Store) :
  healthy s ->
  check_includes schema m (match inc with Some e => [e] | None => [] end) = None ->
  findByPk schema m id inc s =
    (Normal (load schema m (tables s)
               (match inc with Some e => [e] | None => [] end)
             <$> lookup_pk schema m id s),
     record_call (CallFindByPk m id inc) [] s).
Proof.
  intros Hh Hinc. unfold findByPk.
  rewrite (begin_call_healthy _ _ Hh), Hinc. reflexivity.
Qed.

Lemma destroy_healthy (i : Instance) (s : Store) :
  healthy s ->
  destroy i s =
    (Normal tt,
     set_table (inst_model i)
       (delete (inst_id i) (tables s (inst_model i)))
       (record_call (CallDestroy (inst_model i) (inst_id i)) [] s)).
Proof.
  intros Hh. unfold destroy. rewrite (begin_call_healthy _ _ Hh). reflexivity.
Qed.

Lemma lookup_pk_Some (m : Model) (id : option string) (s : Store)
    (k : Z) (r : Row) :
  lookup_pk schema m id s = Some (k, r) <->
  exists p,
    id = Some p /\ pk_of_param schema p = Some k /\ tables s m !! k = Some r.
Proof.
  unfold lookup_pk. split.
  - destruct id as [p|]; simpl; [|done].
    destruct (pk_of_param schema p) as [k'|] eqn:Hk; simpl; [|done].
    destruct (tables s m !! k') as [r'|] eqn:Hr; simpl; [|done].
    intros [= <- <-]. by exists p.
  - intros (p & -> & Hk & Hr). simpl. rewrite Hk. simpl. rewrite Hr. done.
Qed.

End StorageFacts.

(** ** The list handlers *)

Section ListSpec.
Import Storage Http Controllers ListQuery.

Variable schema : Schema.

(** Once the [include] parameter is known to be a string, a list handler is
    one [findAndCountAll] whose outcome decides the response. *)
Lemma getAll_run (r : Resource) (req : Request) (s : Store) (raw : string) :
  JS.or_empty (query req !! "include") = JS.QStr raw ->
  serve (getAll_of schema r req) s =
    match findAndCountAll schema (model_of r)
            (options_of (validRelations_of r) req raw) s with
    | (Normal (count, rows), s') =>
        (Normal tt,
         replied 200 (JsonEnvelope (meta_of req raw count) rows)
           (mkWorld s' fresh_res))
    | (Throw e, s') =>
        (Normal tt,
         replied 500 (JsonError (JS.message e)) (mkWorld s' fresh_res))
    end.
Proof.
  intros Hinc.
  destruct r; unfold getAll_of, getAllStudents, getAllTeachers, serve;
    rewrite Hinc; unfold collect_include, bind, ret, try_catch, await;
    cbn [store res model_of validRelations_of];
    fold (limit_of req); fold (page_of req); fold (sortOrder_of req);
    unfold options_of;
    destruct (findAndCountAll _ _ _ _) as [[[count rows]|e] s'];
    reflexivity.
Qed.














Lemma or_empty_without_include (req : Request) :
  JS.or_empty (query (without_include req) !! "include") = JS.QStr "".
Proof. unfold without_include. simpl. by rewrite lookup_delete_eq. Qed.

(** When no element of the include parameter selects anything, the storage
    query is the one of the same request without the parameter. *)
Lemma foreign_include_same_query (r : Resource) (req : Request) (raw : string) :
  build_include (validRelations_of r) raw = [] ->
  options_of (validRelations_of r) req raw
  = options_of (validRelations_of r) (without_include req) "".
Proof.
  intros Hnil.
  unfold options_of, offset_of, limit_of, page_of, sortOrder_of, without_include.
  cbn [query]. rewrite Hnil, !lookup_delete_ne by done.
  by destruct r.
Qed.

(** Hence both requests are answered with the same records and the same
    pagination; the envelope of the first still echoes the raw parameter. *)
Lemma foreign_include_same_page (r : Resource) (req : Request) (s s' : Store)
    (raw : string) (meta : Meta) (data : list Instance) :
  JS.or_empty (query req !! "include") = JS.QStr raw ->
  build_include (validRelations_of r) raw = [] ->
  serve (getAll_of schema r (without_include req)) s
  = (Normal tt, mkWorld s' (mkRes 200 [(200, JsonEnvelope meta data)])) ->
  serve (getAll_of schema r req) s
  = (Normal tt,
     mkWorld s'
       (mkRes 200
          [(200,
            JsonEnvelope
              (mkMeta (totalItems meta) (totalPages meta) (currentPage meta)
                 (itemsPerPage meta) (sortOrder meta) (JS.str_or raw "none"))
              data)])).
Proof.
  intros Hinc Hnil.
  rewrite (getAll_run r _ s "" (or_empty_without_include req)).
  rewrite (getAll_run r req s raw Hinc).
  rewrite <- (foreign_include_same_query r req raw Hnil).
  destruct (findAndCountAll _ _ _ _) as [[[count rows]|e] s1]; [|done].
  unfold replied, meta_of, offset_of, limit_of, page_of, sortOrder_of,
    without_include.
  cbn [store res sent statusCode query]. rewrite !lookup_delete_ne by done.
  intros [= <- <- <-]. reflexivity.
Qed.

End ListSpec.

Import Controllers ListQuery.







(** ** The include allow-list *)

Section IncludeSpec.

Lemma foldl_selected (vr : gmap string IncludeEntry) (segs : list string)
    (acc : list IncludeEntry) :
  foldl
    (fun (include : list IncludeEntry) relation =>
       match JS.get_property vr (JS.trim relation) with
       | Some (JS.Own entry) => (include ++ [entry])%list
       | Some (JS.Inherited member) => (include ++ [IncludeProto member])%list
       | None => include
       end) acc segs
  = (acc ++ flat_map (selected vr) segs)%list.
Proof.
  revert acc. induction segs as [|seg segs IH]; intros acc; simpl.
  - by rewrite app_nil_r.
  - rewrite IH. unfold selected.
    destruct (JS.get_property vr (JS.trim seg)) as [[e|mem]|]; simpl;
      by rewrite <- ?app_assoc.
Qed.

Lemma build_include_selected (vr : gmap string IncludeEntry) (raw : string) :
  build_include vr raw = flat_map (selected vr) (JS.split "," raw).
Proof. unfold build_include. by rewrite foldl_selected. Qed.

(** An allow-listed name adds its relation, as often as it occurs. *)
Lemma selected_allowed (vr : gmap string IncludeEntry) (seg : string)
    (e : IncludeEntry) :
  vr !! JS.trim seg = Some e -> selected vr seg = [e].
Proof. unfold selected, JS.get_property. intros ->. reflexivity. Qed.

(** A name that is neither allow-listed nor a member of [Object.prototype]
    adds nothing. *)
Lemma selected_foreign (vr : gmap string IncludeEntry) (seg : string) :
  vr !! JS.trim seg = None ->
  JS.trim seg ∉ JS.Object_prototype_members ->
  selected vr seg = [].
Proof.
  unfold selected, JS.get_property. intros -> Hnot.
  destruct (decide _); done.
Qed.

(** A member of [Object.prototype] that is not allow-listed is not dropped. *)
Lemma selected_inherited (vr : gmap string IncludeEntry) (seg : string) :
  vr !! JS.trim seg = None ->
  JS.trim seg ∈ JS.Object_prototype_members ->
  selected vr seg = [IncludeProto (JS.trim seg)].
Proof.
  unfold selected, JS.get_property. intros -> Hin.
  destruct (decide _); done.
Qed.

Example build_include_examples :
  build_include (validRelations_of Students) " Courses ,Teacher"
  = [IncludeSpec Course ["id"; "title"; "description"] (Some []);
     IncludeSpec Teacher ["id"; "name"; "email"] None] /\
  build_include (validRelations_of Teachers) "Courses,Courses"
  = [IncludeSpec Course ["id"; "title"; "description"] None;
     IncludeSpec Course ["id"; "title"; "description"] None] /\
  build_include (validRelations_of Teachers) "courses,Teacher,,x" = [] /\
  build_include (validRelations_of Students) "" = [].
Proof. repeat split; reflexivity. Qed.

(** C6 (at the failing input). The name constructor is on neither
    allow-list, yet the list handlers do not drop it: the member inherited
    from [Object.prototype] is pushed on the query's include. *)
Theorem include_prototype_member_kept :
  validRelations_of Students !! "constructor" = None /\
  validRelations_of Teachers !! "constructor" = None /\
  build_include (validRelations_of Students) "constructor"
  = [IncludeProto "constructor"] /\
  build_include (validRelations_of Teachers) "constructor"
  = [IncludeProto "constructor"].
Proof. repeat split; reflexivity. Qed.

(** C7 (at the failing input). The include parameter constructor names no
    relation, yet the request is answered 500 where the same request without
    include is answered 200 with the envelope. *)
Theorem unrecognized_include_changes_response :
  validRelations_of Teachers !! "constructor" = None /\
  sent (res (serve (getAll_of Fixture.schema Teachers Fixture.constructor_request)
               Fixture.store0).2)
  = [(500, JsonError
             "Include unexpected. Element has to be either a Model, an Association or an object.")] /\
  exists data,
    sent (res (serve (getAll_of Fixture.schema Teachers
                        (without_include Fixture.constructor_request))
                 Fixture.store0).2)
    = [(200, JsonEnvelope (mkMeta 3 1 1 10 "DESC" "none") data)].
Proof.
  split; [reflexivity|]. split; [reflexivity|].
  eexists. vm_compute. reflexivity.
Qed.

End IncludeSpec.

(** ** Single-record handlers *)

Section CrudSpec.

Variable schema : Schema.

Ltac run_handler :=
  unfold serve, try_catch, bind, ret, await, status, json;
  cbn [store res statusCode sent fst snd].

(** What [delete] does on a healthy store. *)
Lemma delete_run (r : Resource) (req : Request) (s : Store) :
  healthy s ->
  serve (delete_of schema r req) s =
    match lookup_pk schema (model_of r) (params req !! "id") s with
    | None =>
        (Normal tt,
         replied 404 (JsonMessage "Not found")
           (mkWorld (record_call (CallFindByPk (model_of r) (params req !! "id") None) [] s)
              fresh_res))
    | Some (k, _) =>
        (Normal tt,
         replied 200 (JsonMessage "Deleted")
           (mkWorld
              (set_table (model_of r) (delete k (tables s (model_of r)))
                 (record_call (CallDestroy (model_of r) k) []
                    (record_call (CallFindByPk (model_of r) (params req !! "id") None) [] s)))
              fresh_res))
    end.
Proof.
  intros Hh.
  destruct r; unfold delete_of, deleteStudent, deleteTeacher; run_handler;
    rewrite (findByPk_healthy schema _ _ None s Hh (check_includes_nil schema _));
    cbn [model_of];
    (destruct (lookup_pk _ _ _ s) as [[k row]|]; [|reflexivity]);
    cbn [fmap option_fmap option_map store];
    rewrite destroy_healthy by apply healthy_record_call; reflexivity.
Qed.

(** What [getById] does on a healthy store whose schema associates the
    resource with courses. *)
Lemma getById_run (r : Resource) (req : Request) (s : Store) :
  healthy s ->
  associated schema (model_of r) Course = true ->
  serve (getById_of schema r req) s =
    let s' := record_call (CallFindByPk (model_of r) (params req !! "id")
                             (Some (IncludeModel Course))) [] s in
    match lookup_pk schema (model_of r) (params req !! "id") s with
    | None =>
        (Normal tt, replied 404 (JsonMessage "Not found") (mkWorld s' fresh_res))
    | Some row =>
        (Normal tt,
         replied 200
           (JsonRecord (load schema (model_of r) (tables s) [IncludeModel Course] row))
           (mkWorld s' fresh_res))
    end.
Proof.
  intros Hh Hassoc.
  assert (check_includes schema (model_of r) [IncludeModel Course] = None) as Hc.
  { simpl. unfold check_include. simpl. by rewrite Hassoc. }
  destruct r; unfold getById_of, getStudentById, getTeacherById; run_handler;
    rewrite (findByPk_healthy schema _ _ (Some (IncludeModel Course)) s Hh Hc);
    cbn [model_of];
    destruct (lookup_pk _ _ _ s) as [row|]; reflexivity.
Qed.

Lemma lookup_pk_deleted (m : Model) (id : option string) (s s1 : Store)
    (k : Z) (row : Row) :
  lookup_pk schema m id s = Some (k, row) ->
  lookup_pk schema m id (set_table m (delete k (tables s m)) s1) = None.
Proof.
  intros (p & -> & Hk & _)%lookup_pk_Some. unfold lookup_pk. simpl.
  rewrite Hk. simpl. rewrite fn_lookup_insert, lookup_delete_eq. reflexivity.
Qed.

(** C8. On a healthy store: [delete(id)] on a missing record answers 404 and
    leaves the tables, counters and clock unchanged; on an existing record it
    removes that record, and no other, and answers 200 with the message
    Deleted, so that a subsequent [getById(id)] with the same id answers 404
    with the message Not found. *)
Theorem delete_then_get (r : Resource) (req : Request) (s : Store) :
  healthy s ->
  associated schema (model_of r) Course = true ->
  (lookup_pk schema (model_of r) (params req !! "id") s = None ->
   exists s',
     serve (delete_of schema r req) s
     = (Normal tt, mkWorld s' (mkRes 404 [(404, JsonMessage "Not found")])) /\
     tables s' = tables s /\ autoinc s' = autoinc s /\ clock s' = clock s) /\
  (forall k row,
     lookup_pk schema (model_of r) (params req !! "id") s = Some (k, row) ->
     exists s',
       serve (delete_of schema r req) s
       = (Normal tt, mkWorld s' (mkRes 200 [(200, JsonMessage "Deleted")])) /\
       tables s' (model_of r) = delete k (tables s (model_of r)) /\
       (forall m, m <> model_of r -> tables s' m = tables s m) /\
       exists s'',
         serve (getById_of schema r req) s'
         = (Normal tt, mkWorld s'' (mkRes 404 [(404, JsonMessage "Not found")]))).
Proof.
  intros Hh Hassoc. split.
  - intros Hnone. eexists. rewrite (delete_run r req s Hh), Hnone.
    repeat split.
  - intros k row Hsome. eexists. rewrite (delete_run r req s Hh), Hsome.
    split; [reflexivity|]. split; [|split].
    + simpl. apply fn_lookup_insert.
    + intros m Hm. simpl. by apply fn_lookup_insert_ne.
    + eexists. rewrite getById_run; [|reflexivity|exact Hassoc].
      cbv zeta. cbn [store].
      rewrite (lookup_pk_deleted _ _ s _ k row Hsome). reflexivity.
Qed.

(** The handlers for a single record and [create] answer exactly once, with
    a status of their set, whatever the store does. *)
Lemma crud_respond_once (r : Resource) (req : Request) (s : Store) :
  (exists code b s',
     serve (create_of schema r req) s
     = (Normal tt, mkWorld s' (mkRes code [(code, b)]))
     /\ (code = 201 \/ code = 500)) /\
  (exists code b s',
     serve (getById_of schema r req) s
     = (Normal tt, mkWorld s' (mkRes code [(code, b)]))
     /\ (code = 200 \/ code = 404 \/ code = 500)) /\
  (exists code b s',
     serve (update_of schema r req) s
     = (Normal tt, mkWorld s' (mkRes code [(code, b)]))
     /\ (code = 200 \/ code = 404 \/ code = 500)) /\
  (exists code b s',
     serve (delete_of schema r req) s
     = (Normal tt, mkWorld s' (mkRes code [(code, b)]))
     /\ (code = 200 \/ code = 404 \/ code = 500)).
Proof.
  repeat split.
  all: destruct r;
    unfold create_of, getById_of, update_of, delete_of, createStudent,
      createTeacher, getStudentById, getTeacherById, updateStudent,
      updateTeacher, deleteStudent, deleteTeacher;
    run_handler;
    unfold create, findByPk, update, destroy, begin_call.
  all: repeat (simpl; case_match; simplify_eq/=);
    eexists _, _, _; (split; [reflexivity|]); auto.
Qed.

(** The list handler answers exactly once, with 200 or 500, when its
    include parameter is absent or a string. *)
Lemma getAll_respond_once (r : Resource) (req : Request) (s : Store)
    (raw : string) :
  JS.or_empty (query req !! "include") = JS.QStr raw ->
  exists code b s',
    serve (getAll_of schema r req) s
    = (Normal tt, mkWorld s' (mkRes code [(code, b)]))
    /\ (code = 200 \/ code = 500).
Proof.
  intros Hinc. rewrite (getAll_run schema r req s raw Hinc).
  destruct (findAndCountAll _ _ _ _) as [[[count rows]|e] s'];
    eexists _, _, _; (split; [reflexivity|]); auto.
Qed.

(** C10 (at the failing input). When the include parameter is given several
    times, [req.query.include] is an array: the list handler throws before
    its [try] block, the exception escapes it and no response is sent. *)
Theorem getAll_array_include_escapes (r : Resource) (req : Request)
    (s : Store) (items : list JS.qval) :
  query req !! "include" = Some (JS.QArr items) ->
  serve (getAll_of schema r req) s
  = (Throw (JS.TypeError "includeParam.split is not a function"),
     mkWorld s fresh_res).
Proof.
  intros Hinc.
  destruct r; unfold getAll_of, getAllStudents, getAllTeachers, serve;
    rewrite Hinc; reflexivity.
Qed.

End CrudSpec.

Lemma delete_then_get_witness :
  (exists s',
     serve (delete_of Fixture.schema Teachers Fixture.id9_request) Fixture.store0
     = (Normal tt, mkWorld s' (mkRes 404 [(404, JsonMessage "Not found")])) /\
     tables s' = tables Fixture.store0) /\
  (exists s',
     serve (delete_of Fixture.schema Teachers Fixture.id2_request) Fixture.store0
     = (Normal tt, mkWorld s' (mkRes 200 [(200, JsonMessage "Deleted")])) /\
     tables s' Teacher = delete 2 (tables Fixture.store0 Teacher) /\
     exists s'',
       serve (getById_of Fixture.schema Teachers Fixture.id2_request) s'
       = (Normal tt, mkWorld s'' (mkRes 404 [(404, JsonMessage "Not found")]))).
Proof.
  split.
  - destruct (proj1 (delete_then_get Fixture.schema Teachers Fixture.id9_request
                       Fixture.store0 eq_refl eq_refl) eq_refl)
      as (s' & Hserve & Htables & _).
    exists s'. split; [exact Hserve | exact Htables].
  - destruct (proj2 (delete_then_get Fixture.schema Teachers Fixture.id2_request
                       Fixture.store0 eq_refl eq_refl) 2 Fixture.bob eq_refl)
      as (s' & Hserve & Htable & _ & Hget).
    exists s'. split; [exact Hserve|]. split; [exact Htable | exact Hget].
Defined.

Lemma getAll_array_include_escapes_witness :
  serve (getAll_of Fixture.schema Teachers Fixture.repeated_include_request)
    Fixture.store0
  = (Throw (JS.TypeError "includeParam.split is not a function"),
     mkWorld Fixture.store0 fresh_res).
Proof.
  apply (getAll_array_include_escapes Fixture.schema Teachers
           Fixture.repeated_include_request Fixture.store0
           [JS.QStr "Courses"; JS.QStr "Students"]).
  reflexivity.
Defined.

(** ** The composition layer *)

Section AppSpec.
Import App.

Variable schema : Schema.
Variable env_JWT_SECRET : option string.
Variable jwt_decode : string -> string -> option (gmap string string).
Variables serveSwagger setupSwagger : Middleware.
Variables courseRoutes authRoutes : list Route.

Local Abbreviation the_app :=
  (app schema env_JWT_SECRET jwt_decode serveSwagger setupSwagger
     courseRoutes authRoutes).

Lemma seg_matches_exclusive (a b seg : string) :
  seg_matches a seg = true -> a <> b -> seg_matches b seg = false.
Proof.
  unfold seg_matches. intros Ha%String.eqb_eq Hne.
  apply String.eqb_neq. congruence.
Qed.

Lemma find_route_headers (routes : list Route) (m : string) (p : list string)
    (hs hs' : gmap string string) (q : gmap string JS.qval)
    (ps b : gmap string string) (u : option (gmap string string)) :
  find_route routes (mkRequest m p hs q ps b u)
  = find_route routes (mkRequest m p hs' q ps b u).
Proof.
  induction routes as [|r routes IH]; [done|]. simpl.
  unfold match_route. simpl. by rewrite IH.
Qed.

Lemma find_route_elem (routes : list Route) (req : Request) (r : Route)
    (ps : gmap string string) :
  find_route routes req = Some (r, ps) -> r ∈ routes.
Proof.
  induction routes as [|r' routes IH]; simpl; [done|].
  destruct (match_route r' req).
  - intros [= <- _]. apply list_elem_of_here.
  - intros H. apply list_elem_of_further, IH, H.
Qed.

Lemma studentRoutes_blind (r : Route) :
  r ∈ studentRoutes schema -> header_blind (route_handler r).
Proof.
  unfold studentRoutes. rewrite !elem_of_cons, elem_of_nil.
  intros [->|[->|[->|[->|[->|[]]]]]] req a; reflexivity.
Qed.

Lemma teacherRoutes_blind (r : Route) :
  r ∈ teacherRoutes schema -> header_blind (route_handler r).
Proof.
  unfold teacherRoutes. rewrite !elem_of_cons, elem_of_nil.
  intros [->|[->|[->|[->|[->|[]]]]]] req a; reflexivity.
Qed.

Lemma handle_json (rest : list Layer) (req : Request) (w : World) :
  handle (use [] [express_json] :: rest) req w
  = handle rest (set_path (path req) (set_path (path req) req)) w.
Proof. reflexivity. Qed.

Lemma handle_skip (mount : list string) (stack : list Middleware)
    (rest : list Layer) (req : Request) :
  strip_prefix mount (path req) = None ->
  handle (use mount stack :: rest) req = handle rest req.
Proof. intros H. unfold handle. simpl. by rewrite H. Qed.

(** Only an [OPTIONS] request gathers methods. *)
Lemma allowed_other_method (routes : list Route) (req : Request)
    (allow : list string) :
  method req <> "OPTIONS" -> allowed routes req allow = allow.
Proof.
  intros Hm. induction routes as [|r routes IH]; simpl; [done|].
  unfold allow_route. apply String.eqb_neq in Hm. by rewrite Hm.
Qed.

Lemma strip_prefix_one (lit seg : string) (sub : list string) :
  strip_prefix [lit] (seg :: sub)
  = if seg_matches lit seg then Some sub else None.
Proof. reflexivity. Qed.

(** A mounted router: the first matching route answers; without one the
    router answers an [OPTIONS] request for a path of its routes, and any
    other request goes on to the next layers. *)
Lemma handle_router (mount : list string) (routes : list Route)
    (rest : list Layer) (req : Request) (sub : list string) (w : World) :
  strip_prefix mount (path req) = Some sub ->
  handle (use mount [router routes] :: rest) req w
  = match find_route routes (set_path sub req) with
    | Some (r, ps) =>
        match route_handler r (set_params ps (set_path sub req)) w with
        | (Normal _, w') => (Normal tt, w')
        | (Throw e, w') => (Throw e, w')
        end
    | None =>
        match allowed routes (set_path sub req) [] with
        | [] => handle rest (set_path (path req) (set_path sub req)) w
        | m :: ms => send_options (m :: ms) w
        end
    end.
Proof.
  intros Hsub. unfold handle. simpl. rewrite Hsub. unfold router, bind, ret.
  destruct (find_route routes (set_path sub req)) as [[r ps]|].
  - destruct (route_handler r _ w) as [[[]|e] w']; reflexivity.
  - destruct (allowed routes (set_path sub req) []); reflexivity.
Qed.

(** A request that a mounted router routes is answered by it in the same
    way whatever its Authorization header. *)
Lemma handle_router_blind (lit : string) (routes : list Route)
    (rest : list Layer) (m seg : string) (sub : list string)
    (hs hs' : gmap string string) (q : gmap string JS.qval)
    (ps b : gmap string string) (u : option (gmap string string))
    (a : option string) (w : World) :
  (forall r, r ∈ routes -> header_blind (route_handler r)) ->
  seg_matches lit seg = true ->
  is_Some (find_route routes (mkRequest m sub hs q ps b u)) ->
  hs' = headers (with_authorization a (mkRequest m sub hs q ps b u)) ->
  handle (use [lit] [router routes] :: rest) (mkRequest m (seg :: sub) hs' q ps b u) w
  = handle (use [lit] [router routes] :: rest) (mkRequest m (seg :: sub) hs q ps b u) w.
Proof.
  intros Hblind Hlit [[r ps'] Hfind] ->.
  rewrite !(handle_router [lit] routes rest _ sub)
    by (cbn [path]; rewrite strip_prefix_one, Hlit; reflexivity).
  unfold set_path, set_params.
  cbn [method path headers query params body user].
  rewrite (find_route_headers routes m sub _ hs), Hfind.
  pose proof (Hblind r (find_route_elem _ _ _ _ Hfind)
                (mkRequest m sub hs q ps' b u) a) as Hr.
  unfold with_authorization in Hr. cbn in Hr.
  unfold set_params. cbn. rewrite Hr. reflexivity.
Qed.

(** The first five layers of the application, for any routers and
    middleware. *)
Lemma layers_blind (sR cR tR : list Route) (sw1 sw2 : Middleware)
    (tail : list Layer) (req : Request) (a : option string) (w : World) :
  (forall r, r ∈ sR -> header_blind (route_handler r)) ->
  (forall r, r ∈ cR -> header_blind (route_handler r)) ->
  (forall r, r ∈ tR -> header_blind (route_handler r)) ->
  routed_at ["students"] sR req || routed_at ["courses"] cR req
  || routed_at ["teachers"] tR req = true ->
  let layers :=
    use [] [express_json] :: use ["docs"] [sw1; sw2]
    :: use ["students"] [router sR] :: use ["courses"] [router cR]
    :: use ["teachers"] [router tR] :: tail in
  handle layers (with_authorization a req) w = handle layers req w.
Proof.
  intros Hs Hc Ht Hrouted layers. subst layers.
  destruct req as [m p hs q ps b u].
  unfold routed_at in Hrouted. cbn [path set_path method headers query params
    body user] in Hrouted.
  destruct p as [|seg sub]; [discriminate|].
  rewrite !strip_prefix_one in Hrouted.
  unfold with_authorization. rewrite !handle_json.
  unfold set_path. cbn [method path headers query params body user].
  destruct (seg_matches "students" seg) eqn:Hst.
  - rewrite !(handle_skip ["docs"])
      by (cbn [path]; rewrite strip_prefix_one,
            (seg_matches_exclusive "students" "docs" seg Hst); done).
    destruct (find_route sR _) as [found|] eqn:Hfind.
    + by apply (handle_router_blind "students" sR _ m seg sub hs _ q ps b u a w).
    + rewrite (seg_matches_exclusive "students" "courses" seg Hst) in Hrouted
        by done.
      rewrite (seg_matches_exclusive "students" "teachers" seg Hst) in Hrouted
        by done.
      discriminate.
  - destruct (seg_matches "courses" seg) eqn:Hco.
    + rewrite !(handle_skip ["docs"])
        by (cbn [path]; rewrite strip_prefix_one,
              (seg_matches_exclusive "courses" "docs" seg Hco); done).
      rewrite !(handle_skip ["students"])
        by (cbn [path]; rewrite strip_prefix_one, Hst; done).
      destruct (find_route cR _) as [found|] eqn:Hfind.
      * by apply (handle_router_blind "courses" cR _ m seg sub hs _ q ps b u a w).
      * rewrite (seg_matches_exclusive "courses" "teachers" seg Hco) in Hrouted
          by done.
        discriminate.
    + destruct (seg_matches "teachers" seg) eqn:Hte; [|discriminate].
      rewrite !(handle_skip ["docs"])
        by (cbn [path]; rewrite strip_prefix_one,
              (seg_matches_exclusive "teachers" "docs" seg Hte); done).
      rewrite !(handle_skip ["students"])
        by (cbn [path]; rewrite strip_prefix_one, Hst; done).
      rewrite !(handle_skip ["courses"])
        by (cbn [path]; rewrite strip_prefix_one, Hco; done).
      destruct (find_route tR _) as [found|] eqn:Hfind; [|discriminate].
      by apply (handle_router_blind "teachers" tR _ m seg sub hs _ q ps b u a w).
Qed.

(** C1 (amended). The composition layer mounts each resource router
    (/students, /courses, /teachers) twice on the same path, the
    unauthenticated mount registered before the mount behind the
    authentication middleware; consequently every request that matches a
    route of its resource's router is answered by the unauthenticated mount,
    in the same way whatever its Authorization header (valid, invalid or
    absent). The handlers of the course router, which is not part of the
    sources, are taken not to read that header. *)
Theorem double_mount_routed_blind :
  (the_app !! 2%nat = Some (use ["students"] [router (studentRoutes schema)]) /\
   the_app !! 7%nat
   = Some (use ["students"]
             [authenticateJWT env_JWT_SECRET jwt_decode;
              router (studentRoutes schema)]) /\
   the_app !! 3%nat = Some (use ["courses"] [router courseRoutes]) /\
   the_app !! 6%nat
   = Some (use ["courses"]
             [authenticateJWT env_JWT_SECRET jwt_decode; router courseRoutes]) /\
   the_app !! 4%nat = Some (use ["teachers"] [router (teacherRoutes schema)]) /\
   the_app !! 8%nat
   = Some (use ["teachers"]
             [authenticateJWT env_JWT_SECRET jwt_decode;
              router (teacherRoutes schema)])) /\
  ((forall r, r ∈ courseRoutes -> header_blind (route_handler r)) ->
   forall req a w,
     resource_routed schema courseRoutes req = true ->
     handle the_app (with_authorization a req) w = handle the_app req w).
Proof.
  split; [repeat split|].
  intros Hcourse req a w Hrouted.
  apply layers_blind;
    auto using studentRoutes_blind, teacherRoutes_blind.
Qed.

Lemma handle_auth_reject (mount : list string) (routes : list Route)
    (rest : list Layer) (req : Request) (sub : list string) (w : World) :
  strip_prefix mount (path req) = Some sub ->
  headers req !! "authorization" = None ->
  handle (use mount [authenticateJWT env_JWT_SECRET jwt_decode; router routes]
            :: rest) req w
  = (Normal tt, replied 401 (Text "Unauthorized") w).
Proof.
  intros Hsub Hh. unfold handle. simpl. rewrite Hsub. unfold bind.
  rewrite authenticate_falsy; [reflexivity|].
  simpl. rewrite Hh. reflexivity.
Qed.

(** A request under /students that matches no route of the router, other
    than an [OPTIONS] request, falls through to the authenticated mount:
    without an Authorization header it is answered 401. *)
Lemma unrouted_student_request_needs_token (req : Request) (seg : string)
    (sub : list string) (w : World) :
  path req = seg :: sub ->
  seg_matches "students" seg = true ->
  method req <> "OPTIONS" ->
  find_route (studentRoutes schema) (set_path sub req) = None ->
  headers req !! "authorization" = None ->
  handle the_app req w = (Normal tt, replied 401 (Text "Unauthorized") w).
Proof.
  intros Hpath Hseg Hm Hfind Hh. unfold app.
  destruct req as [m p hs q ps b u]. simpl in Hpath, Hh, Hm. subst p.
  rewrite handle_json. unfold set_path at 1 2.
  cbn [method path headers query params body user].
  rewrite (handle_skip ["docs"])
    by (cbn [path]; rewrite strip_prefix_one,
          (seg_matches_exclusive "students" "docs" seg Hseg); done).
  rewrite (handle_router ["students"] _ _ _ sub)
    by (cbn [path]; rewrite strip_prefix_one, Hseg; done).
  rewrite Hfind, allowed_other_method by exact Hm. unfold set_path.
  cbn [method path headers query params body user].
  rewrite (handle_skip ["courses"])
    by (cbn [path]; rewrite strip_prefix_one,
          (seg_matches_exclusive "students" "courses" seg Hseg); done).
  rewrite (handle_skip ["teachers"])
    by (cbn [path]; rewrite strip_prefix_one,
          (seg_matches_exclusive "students" "teachers" seg Hseg); done).
  rewrite (handle_skip ["auth"])
    by (cbn [path]; rewrite strip_prefix_one,
          (seg_matches_exclusive "students" "auth" seg Hseg); done).
  rewrite (handle_skip ["courses"])
    by (cbn [path]; rewrite strip_prefix_one,
          (seg_matches_exclusive "students" "courses" seg Hseg); done).
  apply (handle_auth_reject ["students"] _ _ _ sub); [|exact Hh].
  cbn [path]. by rewrite strip_prefix_one, Hseg.
Qed.

End AppSpec.

Import App.

Lemma double_mount_routed_blind_witness :
  handle Fixture.application
    (with_authorization (Some "Bearer forged") (Fixture.get_teacher2 None))
    (mkWorld Fixture.store0 fresh_res)
  = handle Fixture.application (Fixture.get_teacher2 None)
      (mkWorld Fixture.store0 fresh_res).
Proof.
  apply (proj2 (double_mount_routed_blind Fixture.schema None Fixture.jwt_decode
                  Fixture.pass Fixture.pass [] [])).
  - intros r Hr. by apply elem_of_nil in Hr.
  - reflexivity.
Defined.

(** C1 as stated fails: [PATCH /students] is a request to a resource path,
    and its response depends on the Authorization header: 401 without one,
    403 with an invalid one, 404 with a valid one. *)
Lemma unrouted_request_is_authenticated :
  ~ (strip_prefix ["students"] (path (Fixture.patch_students None)) = Some [] ->
     serve (handle Fixture.application (Fixture.patch_students None))
       Fixture.store0
     = serve (handle Fixture.application
                (Fixture.patch_students (Some "Bearer forged")))
         Fixture.store0).
Proof.
  intros H. specialize (H eq_refl). vm_compute in H. discriminate H.
Qed.

Example unrouted_request_responses :
  sent (res (serve (handle Fixture.application (Fixture.patch_students None))
               Fixture.store0).2)
  = [(401, Text "Unauthorized")] /\
  sent (res (serve (handle Fixture.application
                      (Fixture.patch_students (Some "Bearer forged")))
               Fixture.store0).2)
  = [(403, Text "Forbidden")] /\
  sent (res (serve (handle Fixture.application
                      (Fixture.patch_students (Some "Bearer good.token")))
               Fixture.store0).2)
  = [(404, Text "Cannot PATCH")].
Proof. repeat split; reflexivity. Qed.

(** ** Examples of the JavaScript primitives *)

Example parseInt_examples :
  JS.parseInt (Some (JS.QStr "25")) = JS.Num 25 /\
  JS.parseInt (Some (JS.QStr "  -7px")) = JS.Num (-7) /\
  JS.parseInt (Some (JS.QStr "0x1f")) = JS.Num 31 /\
  JS.parseInt (Some (JS.QStr "abc")) = JS.NaN /\
  JS.parseInt (Some (JS.QStr "")) = JS.NaN /\
  JS.parseInt None = JS.NaN /\
  JS.parseInt (Some (JS.QArr [JS.QStr "5"; JS.QStr "6"])) = JS.Num 5 /\
  JS.num_or (JS.parseInt (Some (JS.QStr "0"))) 10 = 10 /\
  JS.num_or (JS.parseInt (Some (JS.QStr "-3"))) 10 = -3.
Proof. repeat split; reflexivity. Qed.

Example double_examples :
  JS.parseInt (Some (JS.QStr "9007199254740992")) = JS.Num 9007199254740992 /\
  JS.parseInt (Some (JS.QStr "9007199254740993")) = JS.Num 9007199254740992 /\
  JS.parseInt (Some (JS.QStr "9007199254740995")) = JS.Num 9007199254740996 /\
  JS.parseInt (Some (JS.QStr "99999999999999999999999"))
  = JS.Num 99999999999999991611392 /\
  JS.mul (JS.sub (JS.Num 9007199254740991) 1) 3 = JS.Num 27021597764222968 /\
  JS.double (2 ^ 1024) = JS.Infinity false /\
  JS.mul (JS.sub 1 1) (JS.Infinity false) = JS.NaN /\
  JS.ceil_div 3 (JS.Num 9007199254740992) = JS.Num 1 /\
  JS.ceil_div 3 (JS.Infinity false) = JS.Num 0.
Proof. repeat split; reflexivity. Qed.

Example string_examples :
  JS.split "," "a,,b" = ["a"; ""; "b"] /\
  JS.split "," "" = [""] /\
  JS.split " " "Bearer" !! 1%nat = None /\
  JS.split " " "Bearer  t" !! 1%nat = Some "" /\
  JS.trim "  Courses " = "Courses".
Proof. repeat split; reflexivity. Qed.

(** * Further properties of the handlers *)

(** ** Writes and reads of single records *)

Section CrudRoundTrips.
Import Storage Http Controllers ListQuery.

Variable schema : Schema.

Ltac run_crud :=
  unfold serve, try_catch, bind, ret, await, status, json;
  cbn [store res statusCode sent fst snd].

Lemma plain_body_id (m : Model) (values : gmap string string) :
  plain_body schema m values -> values !! "id" = None.
Proof.
  intros Hp. destruct (values !! "id") as [v|] eqn:Hid; [|done].
  destruct (Hp _ _ Hid) as [_ Hn]. exfalso. apply Hn, list_elem_of_here.
Qed.

Lemma column_values_plain (m : Model) (values : gmap string string) :
  plain_body schema m values -> column_values schema m values = values.
Proof.
  intros Hp. apply map_filter_id. intros f v Hf. exact (proj1 (Hp _ _ Hf)).
Qed.

(** What [create] does on a healthy store whose counter names a free
    identifier, for a body without identifier. *)
Lemma create_run (r : Resource) (req : Request) (s : Store) :
  healthy s ->
  body req !! "id" = None ->
  tables s (model_of r) !! autoinc s (model_of r) = None ->
  serve (create_of schema r req) s =
    let m := model_of r in
    let row := mkRow (clock s) (clock s) (column_values schema m (body req)) in
    (Normal tt,
     replied 201 (JsonRecord (mkInstance m (autoinc s m) row []))
       (mkWorld
          (bump_autoinc m
             (set_table m (<[autoinc s m := row]> (tables s m))
                (record_call (CallCreate m (body req)) [] s)))
          fresh_res)).
Proof.
  intros Hh Hid Hfresh.
  destruct r; unfold create_of, createStudent, createTeacher; run_crud;
    unfold create; rewrite (begin_call_healthy _ _ Hh), Hid;
    cbn [record_call tables autoinc]; cbn [model_of] in Hfresh;
    rewrite Hfresh; reflexivity.
Qed.

Lemma update_healthy (i : Instance) (values : gmap string string) (s : Store) :
  healthy s ->
  update schema i values s =
    let row := mkRow (row_createdAt (inst_row i)) (clock s)
                 (column_values schema (inst_model i) values
                  ∪ row_values (inst_row i)) in
    (Normal (mkInstance (inst_model i) (inst_id i) row (inst_included i)),
     set_table (inst_model i)
       (alter (fun _ => row) (inst_id i) (tables s (inst_model i)))
       (record_call (CallUpdate (inst_model i) (inst_id i) values) [] s)).
Proof.
  intros Hh. unfold update. rewrite (begin_call_healthy _ _ Hh). reflexivity.
Qed.

(** What [update] does on a healthy store. *)
Lemma update_run (r : Resource) (req : Request) (s : Store) :
  healthy s ->
  serve (update_of schema r req) s =
    let m := model_of r in
    let s1 := record_call (CallFindByPk m (params req !! "id") None) [] s in
    match lookup_pk schema m (params req !! "id") s with
    | None =>
        (Normal tt, replied 404 (JsonMessage "Not found") (mkWorld s1 fresh_res))
    | Some (k, old) =>
        let row := mkRow (row_createdAt old) (clock s)
                     (column_values schema m (body req) ∪ row_values old) in
        (Normal tt,
         replied 200 (JsonRecord (mkInstance m k row []))
           (mkWorld
              (set_table m (alter (fun _ => row) k (tables s m))
                 (record_call (CallUpdate m k (body req)) [] s1))
              fresh_res))
    end.
Proof.
  intros Hh.
  destruct r; unfold update_of, updateStudent, updateTeacher; run_crud;
    rewrite (findByPk_healthy schema _ _ None s Hh (check_includes_nil schema _));
    cbn [model_of];
    (destruct (lookup_pk _ _ _ s) as [[k row]|]; [|reflexivity]);
    cbn [fmap option_fmap option_map store];
    rewrite update_healthy by apply healthy_record_call; reflexivity.
Qed.

Lemma lookup_pk_tables (m : Model) (id : option string) (s s' : Store) :
  tables s' m = tables s m -> lookup_pk schema m id s' = lookup_pk schema m id s.
Proof. unfold lookup_pk. by intros ->. Qed.

(** X1. [create] followed by [getById]: on a healthy store whose counter
    names a free identifier, and for a body that names declared columns only
    (no [id], no time stamp), [create] answers 201 with a record that
    carries the next identifier of the model, the fields of the request body
    among its values and the current time as its creation time; and
    [getById] with a parameter that the database reads as that identifier
    then answers 200 with the record of that identifier, which holds the
    fields of the body. *)
Theorem create_then_get (r : Resource) (req req' : Request) (s : Store)
    (p : string) :
  healthy s ->
  associated schema (model_of r) Course = true ->
  plain_body schema (model_of r) (body req) ->
  tables s (model_of r) !! autoinc s (model_of r) = None ->
  params req' !! "id" = Some p ->
  pk_of_param schema p = Some (autoinc s (model_of r)) ->
  exists s1 created,
    serve (create_of schema r req) s
    = (Normal tt, mkWorld s1 (mkRes 201 [(201, JsonRecord created)])) /\
    inst_id created = autoinc s (model_of r) /\
    body req ⊆ row_values (inst_row created) /\
    row_createdAt (inst_row created) = clock s /\
    exists s2 found,
      serve (getById_of schema r req') s1
      = (Normal tt, mkWorld s2 (mkRes 200 [(200, JsonRecord found)])) /\
      inst_id found = inst_id created /\
      body req ⊆ row_values (inst_row found).
Proof.
  intros Hh Hassoc Hplain Hfresh Hid Hpk. eexists _, _.
  rewrite (create_run r req s Hh (plain_body_id _ _ Hplain) Hfresh). cbv zeta.
  rewrite (column_values_plain _ _ Hplain).
  split; [reflexivity|]. cbn [inst_id inst_row row_values row_createdAt store].
  split; [reflexivity|]. split; [reflexivity|]. split; [reflexivity|].
  eexists _, _. rewrite getById_run; [|reflexivity|exact Hassoc].
  cbv zeta. unfold lookup_pk. rewrite Hid. cbn [mbind option_bind].
  rewrite Hpk. cbn [mbind option_bind tables bump_autoinc set_table record_call].
  rewrite fn_lookup_insert, lookup_insert_eq. cbn [mbind option_bind].
  split; [reflexivity|]. split; reflexivity.
Qed.

(** X2. [update] merges and [getById] reads it back: on a healthy store,
    [update] with a parameter in which the database reads no stored
    identifier answers 404 and leaves every table unchanged; on an existing
    record, and for a body that names declared columns only, it answers 200
    with the record whose values are the body's fields over the old ones and
    whose creation time is kept, it changes no other record, and [getById]
    with the same parameter then answers 200 with the record of that
    identifier, those values and that creation time. *)
Theorem update_then_get (r : Resource) (req : Request) (s : Store) :
  healthy s ->
  associated schema (model_of r) Course = true ->
  (lookup_pk schema (model_of r) (params req !! "id") s = None ->
   exists s',
     serve (update_of schema r req) s
     = (Normal tt, mkWorld s' (mkRes 404 [(404, JsonMessage "Not found")])) /\
     tables s' = tables s) /\
  (forall k old,
     lookup_pk schema (model_of r) (params req !! "id") s = Some (k, old) ->
     plain_body schema (model_of r) (body req) ->
     exists s' updated,
       serve (update_of schema r req) s
       = (Normal tt, mkWorld s' (mkRes 200 [(200, JsonRecord updated)])) /\
       inst_id updated = k /\
       row_createdAt (inst_row updated) = row_createdAt old /\
       (forall f,
          row_values (inst_row updated) !! f
          = match body req !! f with
            | Some v => Some v
            | None => row_values old !! f
            end) /\
       (forall k', k' <> k ->
          tables s' (model_of r) !! k' = tables s (model_of r) !! k') /\
       (forall m, m <> model_of r -> tables s' m = tables s m) /\
       exists s'' found,
         serve (getById_of schema r req) s'
         = (Normal tt, mkWorld s'' (mkRes 200 [(200, JsonRecord found)])) /\
         inst_id found = k /\
         row_values (inst_row found) = row_values (inst_row updated) /\
         row_createdAt (inst_row found) = row_createdAt (inst_row updated)).
Proof.
  intros Hh Hassoc. split.
  - intros Hnone. eexists. rewrite (update_run r req s Hh). cbv zeta.
    rewrite Hnone. split; reflexivity.
  - intros k old Hsome Hplain. eexists _, _. rewrite (update_run r req s Hh).
    cbv zeta. rewrite Hsome, (column_values_plain _ _ Hplain).
    split; [reflexivity|].
    cbn [inst_id inst_row row_values row_createdAt store].
    split; [reflexivity|]. split; [reflexivity|]. split; [|split; [|split]].
    + intros f. rewrite lookup_union.
      destruct (body req !! f), (row_values old !! f); reflexivity.
    + intros k' Hk'. cbn [tables set_table record_call].
      rewrite fn_lookup_insert. by apply lookup_alter_ne.
    + intros m Hm. cbn [tables set_table record_call].
      by apply fn_lookup_insert_ne.
    + apply lookup_pk_Some in Hsome as (p & Hid & Hpk & Hrow).
      eexists _, _. rewrite getById_run; [|reflexivity|exact Hassoc].
      cbv zeta. unfold lookup_pk. rewrite Hid. cbn [mbind option_bind].
      rewrite Hpk. cbn [mbind option_bind tables set_table record_call].
      rewrite fn_lookup_insert, lookup_alter_eq, Hrow.
      cbn [fmap option_fmap option_map mbind option_bind].
      split; [reflexivity|]. repeat split.
Qed.

Local Abbreviation answers_500 h s e fs :=
  (exists s',
     serve h s
     = (Normal tt, mkWorld s' (mkRes 500 [(500, JsonError (JS.message e))])) /\
     Frame.same_data s s' /\ faults s' = fs).


(** X4. A failed write keeps the record: when the record is found and the
    write that follows ([destroy] or [update]) throws [e], [delete] and
    [update] answer 500 with [{error: e.message}] and the record, like all
    the data of the store, is as it was. *)
Theorem failed_write_keeps_record (r : Resource) (req : Request) (s : Store)
    (e : JS.error) (fs : list (option JS.error)) (k : Z) (old : Row) :
  faults s = None :: Some e :: fs ->
  lookup_pk schema (model_of r) (params req !! "id") s = Some (k, old) ->
  answers_500 (delete_of schema r req) s e fs /\
  answers_500 (update_of schema r req) s e fs.
Proof.
  intros Hf Hsome. split.
  - destruct r; unfold delete_of, deleteStudent, deleteTeacher; run_crud;
      unfold findByPk, begin_call; rewrite Hf; cbn [check_includes];
      rewrite (lookup_pk_tables _ _ s) by reflexivity;
      cbn [model_of] in Hsome; rewrite Hsome;
      cbn [fmap option_fmap option_map store]; unfold destroy, begin_call;
      cbn [faults record_call]; eexists; repeat split.
  - destruct r; unfold update_of, updateStudent, updateTeacher; run_crud;
      unfold findByPk, begin_call; rewrite Hf; cbn [check_includes];
      rewrite (lookup_pk_tables _ _ s) by reflexivity;
      cbn [model_of] in Hsome; rewrite Hsome;
      cbn [fmap option_fmap option_map store]; unfold update, begin_call;
      cbn [faults record_call]; eexists; repeat split.
Qed.

Lemma findAndCountAll_same_data (m : Model) (o : FindOptions) (s : Store) :
  Frame.same_data s (findAndCountAll schema m o s).2.
Proof.
  unfold findAndCountAll, begin_call.
  destruct (faults s) as [|[e|] fs]; simpl; try done;
    destruct (check_includes _ _ _); simpl; try done;
    destruct (row_count (limit o)); simpl; try done;
    destruct (row_count (offset o)); simpl; try done;
    destruct (order_rows _ _); done.
Qed.

Lemma findByPk_same_data (m : Model) (id : option string)
    (inc : option IncludeEntry) (s : Store) :
  Frame.same_data s (findByPk schema m id inc s).2.
Proof.
  unfold findByPk, begin_call.
  destruct (faults s) as [|[e|] fs]; simpl; try done;
    destruct (check_includes _ _ _); done.
Qed.

(** X5. The read handlers do not write: whatever the request and whatever
    the store does, the list handler and [getById] leave the tables, the
    counters and the clock of the store as they were. *)
Theorem reads_do_not_write (r : Resource) (req : Request) (s : Store) :
  Frame.same_data s (store (serve (getAll_of schema r req) s).2) /\
  Frame.same_data s (store (serve (getById_of schema r req) s).2).
Proof.
  split.
  - destruct (JS.or_empty (query req !! "include")) as [raw|items|props] eqn:Hinc.
    + rewrite (getAll_run schema r req s raw Hinc).
      pose proof (findAndCountAll_same_data (model_of r)
                    (options_of (validRelations_of r) req raw) s) as Hsame.
      destruct (findAndCountAll _ _ _ _) as [[[count rows]|e] s']; exact Hsame.
    + destruct r; unfold getAll_of, getAllStudents, getAllTeachers, serve;
        rewrite Hinc; done.
    + destruct r; unfold getAll_of, getAllStudents, getAllTeachers, serve;
        rewrite Hinc; done.
  - destruct r; unfold getById_of, getStudentById, getTeacherById; run_crud.
    + pose proof (findByPk_same_data Student (params req !! "id")
                    (Some (IncludeModel Course)) s) as Hsame.
      destruct (findByPk _ _ _ _ _) as [[[i|]|e] s']; exact Hsame.
    + pose proof (findByPk_same_data Teacher (params req !! "id")
                    (Some (IncludeModel Course)) s) as Hsame.
      destruct (findByPk _ _ _ _ _) as [[[i|]|e] s']; exact Hsame.
Qed.


(** X7. Deleting twice: on a healthy store, once [delete] has removed a
    record, a second [delete] with the same identifier answers 404 with the
    message Not found and changes no table. *)
Theorem delete_twice (r : Resource) (req : Request) (s : Store) (k : Z)
    (old : Row) :
  healthy s ->
  lookup_pk schema (model_of r) (params req !! "id") s = Some (k, old) ->
  exists s1 s2,
    serve (delete_of schema r req) s
    = (Normal tt, mkWorld s1 (mkRes 200 [(200, JsonMessage "Deleted")])) /\
    serve (delete_of schema r req) s1
    = (Normal tt, mkWorld s2 (mkRes 404 [(404, JsonMessage "Not found")])) /\
    tables s2 = tables s1.
Proof.
  intros Hh Hsome. eexists _, _.
  rewrite (delete_run schema r req s Hh), Hsome. split; [reflexivity|].
  cbn [store]. rewrite delete_run by reflexivity.
  rewrite (lookup_pk_deleted _ _ _ s _ k old Hsome). split; reflexivity.
Qed.

End CrudRoundTrips.

(** A body is plain when the test of its fields says so. *)
Lemma plain_body_decide (schema : Schema) (m : Model)
    (values : gmap string string) :
  forallb
    (fun kv : string * string =>
       bool_decide (kv.1 ∈ columns schema m)
       && negb (bool_decide (kv.1 ∈ ["id"; "createdAt"; "updatedAt"])))
    (map_to_list values) = true ->
  plain_body schema m values.
Proof.
  intros Hall f v Hf. rewrite forallb_forall in Hall.
  apply elem_of_map_to_list, list_elem_of_In, Hall in Hf.
  apply andb_prop in Hf as [Hc Hr]. apply bool_decide_eq_true in Hc.
  apply negb_true_iff, bool_decide_eq_false in Hr. done.
Qed.

Lemma create_then_get_witness :
  exists s1 created,
    serve (create_of Fixture.schema Teachers Scenario.create_request) Fixture.store0
    = (Normal tt, mkWorld s1 (mkRes 201 [(201, JsonRecord created)])) /\
    inst_id created = 4 /\
    body Scenario.create_request ⊆ row_values (inst_row created) /\
    row_createdAt (inst_row created) = 1000 /\
    exists s2 found,
      serve (getById_of Fixture.schema Teachers Scenario.id4_request) s1
      = (Normal tt, mkWorld s2 (mkRes 200 [(200, JsonRecord found)])) /\
      inst_id found = inst_id created /\
      body Scenario.create_request ⊆ row_values (inst_row found).
Proof.
  apply (create_then_get Fixture.schema Teachers Scenario.create_request
           Scenario.id4_request Fixture.store0 "4");
    first [reflexivity | apply plain_body_decide; reflexivity].
Defined.

Lemma update_then_get_witness :
  exists s' updated,
    serve (update_of Fixture.schema Teachers Scenario.update_request)
      Fixture.store0
    = (Normal tt, mkWorld s' (mkRes 200 [(200, JsonRecord updated)])) /\
    inst_id updated = 2 /\
    row_createdAt (inst_row updated) = 300 /\
    row_values (inst_row updated) !! "department" = Some "Maths" /\
    row_values (inst_row updated) !! "name" = Some "Bob".
Proof.
  destruct (proj2 (update_then_get Fixture.schema Teachers
                     Scenario.update_request Fixture.store0 eq_refl eq_refl)
              2 Fixture.bob eq_refl
              (plain_body_decide Fixture.schema Teacher
                 (body Scenario.update_request) eq_refl))
    as (s' & updated & Hserve & Hid & Hcreated & Hvalues & _).
  exists s', updated. split; [exact Hserve|]. split; [exact Hid|].
  split; [exact Hcreated|]. split.
  - rewrite Hvalues. reflexivity.
  - rewrite Hvalues. reflexivity.
Defined.


Lemma failed_write_keeps_record_witness :
  exists s',
    serve (delete_of Fixture.schema Teachers Fixture.id2_request)
      Scenario.failing_write_store
    = (Normal tt,
       mkWorld s' (mkRes 500 [(500, JsonError "connection lost")])) /\
    Frame.same_data Scenario.failing_write_store s' /\ faults s' = [].
Proof.
  apply (failed_write_keeps_record Fixture.schema Teachers Fixture.id2_request
           Scenario.failing_write_store Scenario.lost [] 2 Fixture.bob);
    reflexivity.
Defined.


Lemma delete_twice_witness :
  exists s1 s2,
    serve (delete_of Fixture.schema Teachers Fixture.id2_request) Fixture.store0
    = (Normal tt, mkWorld s1 (mkRes 200 [(200, JsonMessage "Deleted")])) /\
    serve (delete_of Fixture.schema Teachers Fixture.id2_request) s1
    = (Normal tt, mkWorld s2 (mkRes 404 [(404, JsonMessage "Not found")])) /\
    tables s2 = tables s1.
Proof.
  apply (delete_twice Fixture.schema Teachers Fixture.id2_request
           Fixture.store0 2 Fixture.bob); reflexivity.
Defined.

(** ** Pages *)

Section PagingSpec.
Import Storage Http Controllers ListQuery.

Variable schema : Schema.













End PagingSpec.



(** ** The elements of the include parameter *)

Section IncludeMore.
Import Storage Controllers ListQuery Text.

Lemma trimStart_space (ws s : string) :
  all_space ws = true -> JS.trimStart (ws ++ s) = JS.trimStart s.
Proof.
  induction ws as [|c ws IH]; simpl; [done|].
  intros [Hc Hws]%andb_true_iff. rewrite Hc. by apply IH.
Qed.

Lemma trimStart_all_space (ws : string) :
  all_space ws = true -> JS.trimStart ws = "".
Proof.
  induction ws as [|c ws IH]; simpl; [done|].
  intros [Hc Hws]%andb_true_iff. rewrite Hc. by apply IH.
Qed.

Lemma trimEnd_all_space (ws : string) :
  all_space ws = true -> JS.trimEnd ws = "".
Proof.
  induction ws as [|c ws IH]; simpl; [done|].
  intros [Hc Hws]%andb_true_iff. by rewrite IH, Hc.
Qed.

Lemma trimEnd_space (s ws : string) :
  all_space ws = true -> JS.trimEnd (s ++ ws) = JS.trimEnd s.
Proof.
  intros Hws. induction s as [|c s IH]; simpl.
  - by apply trimEnd_all_space.
  - by rewrite IH.
Qed.

Lemma trim_space_end (s ws : string) :
  all_space ws = true -> JS.trim (s ++ ws) = JS.trim s.
Proof.
  intros Hws. unfold JS.trim. induction s as [|c s IH]; simpl.
  - by rewrite trimStart_all_space, trimEnd_all_space.
  - destruct (JS.isWhiteSpace c); [exact IH|].
    by apply (trimEnd_space (String c s)).
Qed.

(** [trim] removes the white space around a string, and nothing else. *)
Lemma trim_spaces (ws s ws' : string) :
  all_space ws = true -> all_space ws' = true ->
  JS.trim (ws ++ s ++ ws') = JS.trim s.
Proof.
  intros Hws Hws'. rewrite <- (trim_space_end s ws' Hws').
  unfold JS.trim. by rewrite trimStart_space.
Qed.

Lemma split_no_sep (sep : ascii) (s : string) :
  has_char sep s = false -> JS.split sep s = [s].
Proof.
  induction s as [|c s IH]; simpl; [done|].
  intros [Hc Hs]%orb_false_iff. rewrite Hc, IH by done. reflexivity.
Qed.

Lemma split_cons (sep : ascii) (a b : string) :
  has_char sep a = false ->
  JS.split sep (a ++ String sep b) = a :: JS.split sep b.
Proof.
  induction a as [|c a IH]; simpl.
  - intros _. by rewrite Ascii.eqb_refl.
  - intros [Hc Ha]%orb_false_iff. rewrite Hc, IH by done. reflexivity.
Qed.

Lemma has_char_app (c : ascii) (a b : string) :
  has_char c (a ++ b) = has_char c a || has_char c b.
Proof.
  induction a as [|c' a IH]; simpl; [done|]. by rewrite IH, orb_assoc.
Qed.

Lemma all_space_no_comma (ws : string) :
  all_space ws = true -> has_char "," ws = false.
Proof.
  induction ws as [|c ws IH]; simpl; [done|].
  intros [Hc Hws]%andb_true_iff. rewrite IH by done.
  rewrite orb_false_r. apply Ascii.eqb_neq. intros ->. discriminate Hc.
Qed.

(** X10. What the include parameter can select: every element of the
    query's include is the allow-list entry of one of the comma-separated
    names, trimmed, or stands for a member of [Object.prototype] named
    there; there is at most one element per name; and when every name is on
    the allow-list, the include holds the entry of each name, in the order
    of the parameter, repeated names included. *)
Theorem build_include_sound (vr : gmap string IncludeEntry) (raw : string) :
  (forall e,
     e ∈ build_include vr raw ->
     exists seg,
       seg ∈ JS.split "," raw /\
       (vr !! JS.trim seg = Some e \/
        (vr !! JS.trim seg = None /\ e = IncludeProto (JS.trim seg) /\
         JS.trim seg ∈ JS.Object_prototype_members))) /\
  (List.length (build_include vr raw) <= List.length (JS.split "," raw))%nat /\
  ((forall seg, seg ∈ JS.split "," raw -> is_Some (vr !! JS.trim seg)) ->
   Forall2 (fun seg e => vr !! JS.trim seg = Some e)
     (JS.split "," raw) (build_include vr raw)).
Proof.
  rewrite build_include_selected. generalize (JS.split "," raw). intros segs.
  split; [|split].
  - intros e He. apply list_elem_of_In, in_flat_map in He as (seg & Hseg & He).
    exists seg. split; [by apply list_elem_of_In|].
    apply list_elem_of_In in He. unfold selected, JS.get_property in He.
    destruct (vr !! JS.trim seg) as [e'|] eqn:Hvr.
    + apply list_elem_of_singleton in He as ->. by left.
    + destruct (decide (JS.trim seg ∈ JS.Object_prototype_members)) as [Hin|].
      * apply list_elem_of_singleton in He as ->. by right.
      * by apply elem_of_nil in He.
  - induction segs as [|seg segs IH]; simpl; [done|].
    rewrite length_app. unfold selected at 1.
    destruct (JS.get_property vr (JS.trim seg)) as [[e|mem]|]; simpl; lia.
  - induction segs as [|seg segs IH]; intros Hall; simpl; [constructor|].
    destruct (Hall seg (list_elem_of_here _ _)) as [e He].
    rewrite (selected_allowed vr seg e He). simpl. constructor; [exact He|].
    apply IH. intros seg' Hseg'. apply Hall. by apply list_elem_of_further.
Qed.

(** X11. White space around a name is ignored: a relation name given with
    white space before or after it selects what the bare name selects. *)
Theorem include_name_spaces (vr : gmap string IncludeEntry)
    (ws name ws' : string) :
  all_space ws = true -> all_space ws' = true ->
  has_char "," name = false ->
  build_include vr (ws ++ name ++ ws') = build_include vr name.
Proof.
  intros Hws Hws' Hname.
  rewrite !build_include_selected, (split_no_sep "," name Hname).
  rewrite split_no_sep
    by (rewrite !has_char_app, Hname, !all_space_no_comma; done).
  simpl. unfold selected. by rewrite trim_spaces.
Qed.

End IncludeMore.

Lemma build_include_sound_witness :
  Forall2 (fun seg e => validRelations_of Teachers !! JS.trim seg = Some e)
    (JS.split "," "Courses, Students,Courses")
    (build_include (validRelations_of Teachers) "Courses, Students,Courses").
Proof.
  apply (build_include_sound (validRelations_of Teachers)
           "Courses, Students,Courses").
  intros seg Hseg.
  change (seg ∈ ["Courses"; " Students"; "Courses"]) in Hseg.
  rewrite !elem_of_cons, elem_of_nil in Hseg.
  destruct Hseg as [->|[->|[->|[]]]]; eexists; reflexivity.
Defined.

Lemma include_name_spaces_witness :
  build_include (validRelations_of Students) ("  " ++ "Courses" ++ " ")
  = build_include (validRelations_of Students) "Courses".
Proof.
  apply (include_name_spaces (validRelations_of Students) "  " "Courses" " ");
    reflexivity.
Defined.

(** ** More on the authentication middleware *)

Section AuthMore.
Import Storage Http Auth Text.

Variable env_JWT_SECRET : option string.
Variable jwt_decode : string -> string -> option (gmap string string).

Local Abbreviation authenticate := (authenticateJWT env_JWT_SECRET jwt_decode).

(** X12. The middleware never throws and never writes to the store, and it
    either calls [next] or answers, never both: either it sends nothing and
    hands on the request with only [req.user] set, or it sends exactly one
    response, 401 or 403, and does not call [next]. *)
Theorem authenticateJWT_next_xor_answer (req : Request) (w : World) :
  store (authenticate req w).2 = store w /\
  ((exists claims,
      authenticate req w = (Normal (Some (set_user claims req)), w)) \/
   (exists code,
      (code = 401 \/ code = 403) /\
      authenticate req w
      = (Normal None, replied code (Text (statusText code)) w))).
Proof.
  destruct (JS.truthy (headers req !! "authorization")) eqn:Htruthy.
  - destruct (headers req !! "authorization") as [v|] eqn:Hh; [|done].
    assert (v <> "") as Hv.
    { intros ->. discriminate Htruthy. }
    rewrite (authenticate_truthy env_JWT_SECRET jwt_decode req w v Hh Hv).
    destruct (jwt_verify _ _ _) as [err|claims].
    + split; [done|]. right. exists 403. split; [by right|done].
    + split; [done|]. left. by exists claims.
  - rewrite (authenticate_falsy env_JWT_SECRET jwt_decode req w Htruthy).
    split; [done|]. right. exists 401. split; [by left|done].
Qed.

Lemma append_empty (a : string) : a ++ "" = a.
Proof.
  induction a as [|c a IH]; [done|].
  change (String c (a ++ "") = String c a). by rewrite IH.
Qed.

Lemma app_nonempty (a b : string) : a ++ String " " b <> "".
Proof. destruct a; discriminate. Qed.

(** X13. Which part of the header is the token: the word after the first
    space is verified, whatever the word before it (the scheme is not
    checked) and whatever follows the next space; the request goes on with
    the decoded claims when that word verifies against the secret and is
    answered 403 otherwise. *)
Theorem token_is_second_word (req : Request) (w : World)
    (scheme token rest : string) :
  headers req !! "authorization" = Some (scheme ++ " " ++ token ++ rest) ->
  has_char " " scheme = false ->
  has_char " " token = false ->
  token <> "" ->
  rest = "" \/ (exists more, rest = " " ++ more) ->
  authenticate req w =
    match jwt_decode token (JWT_SECRET env_JWT_SECRET) with
    | Some claims => (Normal (Some (set_user claims req)), w)
    | None => (Normal None, replied 403 (Text "Forbidden") w)
    end.
Proof.
  intros Hh Hscheme Htoken Hne Hrest.
  rewrite (authenticate_truthy env_JWT_SECRET jwt_decode req w _ Hh)
    by apply app_nonempty.
  change (scheme ++ " " ++ token ++ rest)
    with (scheme ++ String " " (token ++ rest)).
  rewrite (split_cons " " scheme _ Hscheme).
  assert (JS.split " " (token ++ rest) !! 0%nat = Some token) as Hsecond.
  { destruct Hrest as [-> | [more ->]].
    - by rewrite append_empty, (split_no_sep " " token Htoken).
    - change (token ++ " " ++ more) with (token ++ String " " more).
      by rewrite (split_cons " " token _ Htoken). }
  change ((scheme :: JS.split " " (token ++ rest)) !! 1%nat)
    with (JS.split " " (token ++ rest) !! 0%nat).
  rewrite Hsecond. unfold jwt_verify.
  destruct (String.eqb_spec token "") as [->|_]; [done|].
  destruct (jwt_decode token _); reflexivity.
Qed.

End AuthMore.

Lemma token_is_second_word_witness :
  serve (authenticateJWT None Fixture.jwt_decode
           (Fixture.request "GET" [] (Some "Basic good.token and more") ∅ ∅))
    Fixture.store0
  = (Normal (Some (set_user {[ "sub" := "1" ]}
                     (Fixture.request "GET" []
                        (Some "Basic good.token and more") ∅ ∅))),
     mkWorld Fixture.store0 fresh_res).
Proof.
  apply (token_is_second_word None Fixture.jwt_decode _ _
           "Basic" "good.token" " and more");
    [reflexivity | reflexivity | reflexivity | discriminate |].
  right. by exists "and more".
Defined.

(** ** More on the composition layer *)

Section AppMore.
Import Storage Http Controllers Auth App.

Variable schema : Schema.
Variable env_JWT_SECRET : option string.
Variable jwt_decode : string -> string -> option (gmap string string).
Variables serveSwagger setupSwagger : Middleware.
Variables courseRoutes authRoutes : list Route.

Local Abbreviation the_app :=
  (app schema env_JWT_SECRET jwt_decode serveSwagger setupSwagger
     courseRoutes authRoutes).
Local Abbreviation authenticate := (authenticateJWT env_JWT_SECRET jwt_decode).

Lemma handle_verb_miss (r : Route) (rest : list Layer) (req : Request) :
  match_route r req = None -> allow_route r req [] = [] ->
  handle (verb r :: rest) req = handle rest req.
Proof. intros H Hallow. unfold handle. simpl. by rewrite H, Hallow. Qed.

Lemma finalhandler_replies (req : Request) (w : World) :
  handle [] req w = (Normal tt, replied 404 (Text ("Cannot " ++ method req)) w).
Proof. reflexivity. Qed.

(** Routing reads the method and the path of a request, nothing else. *)
Lemma find_route_ext (routes : list Route) (req req' : Request) :
  method req' = method req -> path req' = path req ->
  find_route routes req' = find_route routes req.
Proof.
  intros Hm Hp. induction routes as [|r routes IH]; [done|]. simpl.
  unfold match_route. by rewrite Hm, Hp, IH.
Qed.

Lemma allowed_ext (routes : list Route) (req req' : Request)
    (allow : list string) :
  method req' = method req -> path req' = path req ->
  allowed routes req' allow = allowed routes req allow.
Proof.
  intros Hm Hp. revert allow.
  induction routes as [|r routes IH]; intros allow; [done|]. simpl.
  unfold allow_route. by rewrite Hm, Hp, IH.
Qed.

(** A mount behind the middleware: the router is reached only when the
    middleware calls [next]. *)
Lemma handle_auth_router (mount : list string) (routes : list Route)
    (rest : list Layer) (req : Request) (sub : list string) (w : World) :
  strip_prefix mount (path req) = Some sub ->
  handle (use mount [authenticate; router routes] :: rest) req w
  = match authenticate (set_path sub req) w with
    | (Normal (Some req'), w') =>
        match find_route routes req' with
        | Some (r, ps) =>
            match route_handler r (set_params ps req') w' with
            | (Normal _, w'') => (Normal tt, w'')
            | (Throw e, w'') => (Throw e, w'')
            end
        | None =>
            match allowed routes req' [] with
            | [] => handle rest (set_path (path req) req') w'
            | m :: ms => send_options (m :: ms) w'
            end
        end
    | (Normal None, w') => (Normal tt, w')
    | (Throw e, w') => (Throw e, w')
    end.
Proof.
  intros Hsub. unfold handle. simpl. rewrite Hsub. unfold bind, ret.
  destruct (authenticate (set_path sub req) w) as [[[req'|]|e] w'];
    [|reflexivity|reflexivity].
  unfold router, bind, ret.
  destruct (find_route routes req') as [[r ps]|].
  - destruct (route_handler r _ w') as [[[]|e] w'']; reflexivity.
  - destruct (allowed routes req' []); reflexivity.
Qed.

Ltac skip_mount lit Hseg :=
  rewrite (handle_skip [lit])
    by (cbn [path]; rewrite strip_prefix_one;
        first [ exact (seg_matches_exclusive _ lit _ Hseg ltac:(done))
              | rewrite (seg_matches_exclusive _ lit _ Hseg) by done; done ]).

(** X14. Paths outside the mounts: [GET /] (and [HEAD /], which has the
    same handler) is answered 200 with the welcome text; [OPTIONS /] is
    answered 200 with the methods of that route, GET and HEAD; any other
    method on [/] is answered 404, and so is every request whose first path
    segment is none of docs, students, courses, teachers and auth; no
    Authorization header is needed or read. *)
Theorem unmounted_paths (req : Request) (s : Store) :
  (path req = [] -> method req = "GET" \/ method req = "HEAD" ->
   serve (handle the_app req) s
   = (Normal tt, mkWorld s (mkRes 200 [(200, Text "Welcome to School API!")]))) /\
  (path req = [] -> method req = "OPTIONS" ->
   serve (handle the_app req) s
   = (Normal tt,
      mkWorld s (mkRes 200 [(200, Allowed (list_to_set ["GET"; "HEAD"]))]))) /\
  (path req = [] -> method req <> "GET" -> method req <> "HEAD" ->
   method req <> "OPTIONS" ->
   serve (handle the_app req) s
   = (Normal tt,
      mkWorld s (mkRes 404 [(404, Text ("Cannot " ++ method req))]))) /\
  (forall seg sub,
     path req = seg :: sub ->
     seg_matches "docs" seg = false -> seg_matches "students" seg = false ->
     seg_matches "courses" seg = false -> seg_matches "teachers" seg = false ->
     seg_matches "auth" seg = false ->
     serve (handle the_app req) s
     = (Normal tt,
        mkWorld s (mkRes 404 [(404, Text ("Cannot " ++ method req))]))).
Proof.
  destruct req as [m p hs q ps b u]. cbn [path method]. unfold serve, app.
  split; [|split; [|split]].
  - intros -> Hm. rewrite handle_json. unfold set_path.
    cbn [method path headers query params body user].
    rewrite !handle_skip by reflexivity.
    destruct Hm as [-> | ->]; reflexivity.
  - intros -> ->. reflexivity.
  - intros -> Hget Hhead Hopt. rewrite handle_json. unfold set_path.
    cbn [method path headers query params body user].
    rewrite !handle_skip by reflexivity.
    rewrite handle_verb_miss; [reflexivity| |].
    + unfold match_route, method_matches. cbn [route_method method].
      destruct (String.eqb_spec m "GET") as [->|_]; [done|].
      destruct (String.eqb_spec m "HEAD") as [->|_]; [done|]. reflexivity.
    + unfold allow_route. cbn [method].
      by destruct (String.eqb_spec m "OPTIONS") as [->|_].
  - intros seg sub -> Hdocs Hst Hco Hte Hau. rewrite handle_json.
    unfold set_path. cbn [method path headers query params body user].
    rewrite !handle_skip
      by (cbn [path]; rewrite strip_prefix_one, ?Hdocs, ?Hst, ?Hco, ?Hte, ?Hau;
          reflexivity).
    rewrite handle_verb_miss; [reflexivity| |].
    + unfold match_route. cbn [route_pattern path match_pattern].
      by destruct (method_matches _ _).
    + unfold allow_route. cbn [route_pattern path match_pattern].
      by destruct (String.eqb _ _).
Qed.

(** After the unauthenticated student mount has let a request through, the
    request reaches the authenticated student mount. *)
Lemma unrouted_student_reaches_auth (m seg : string) (sub : list string)
    (hs : gmap string string) (q : gmap string JS.qval)
    (ps b : gmap string string) (u : option (gmap string string)) (w : World) :
  seg_matches "students" seg = true ->
  find_route (studentRoutes schema) (mkRequest m sub hs q ps b u) = None ->
  allowed (studentRoutes schema) (mkRequest m sub hs q ps b u) [] = [] ->
  handle the_app (mkRequest m (seg :: sub) hs q ps b u) w
  = match authenticate (mkRequest m sub hs q ps b u) w with
    | (Normal (Some req'), w') =>
        match find_route (studentRoutes schema) req' with
        | Some (r, ps') =>
            match route_handler r (set_params ps' req') w' with
            | (Normal _, w'') => (Normal tt, w'')
            | (Throw e, w'') => (Throw e, w'')
            end
        | None =>
            match allowed (studentRoutes schema) req' [] with
            | [] =>
                handle
                  [use ["teachers"] [authenticate; router (teacherRoutes schema)];
                   verb (mkRoute "GET" [] welcome)]
                  (set_path (seg :: sub) req') w'
            | a :: allow => send_options (a :: allow) w'
            end
        end
    | (Normal None, w') => (Normal tt, w')
    | (Throw e, w') => (Throw e, w')
    end.
Proof.
  intros Hseg Hfind Hallow. unfold app. rewrite handle_json. unfold set_path.
  cbn [method path headers query params body user].
  skip_mount "docs" Hseg.
  rewrite (handle_router ["students"] _ _ _ sub)
    by (cbn [path]; rewrite strip_prefix_one, Hseg; done).
  unfold set_path. cbn [method path headers query params body user].
  rewrite Hfind, Hallow.
  skip_mount "courses" Hseg. skip_mount "teachers" Hseg.
  skip_mount "auth" Hseg. skip_mount "courses" Hseg.
  rewrite (handle_auth_router ["students"] _ _ _ sub)
    by (cbn [path]; rewrite strip_prefix_one, Hseg; done).
  reflexivity.
Qed.

(** X15. A request under /students that the unauthenticated student router
    passes on (it matches none of its routes and is not an [OPTIONS]
    request for a path of one of them) is answered by the authenticated
    mount according to its Authorization header: 401 when the header is
    absent or empty, 403 when its second word does not verify, and 404, the
    answer of the application to an unknown route, when it does. *)
Theorem unrouted_student_request_by_token (req : Request) (seg : string)
    (sub : list string) (w : World) :
  path req = seg :: sub ->
  seg_matches "students" seg = true ->
  find_route (studentRoutes schema) (set_path sub req) = None ->
  allowed (studentRoutes schema) (set_path sub req) [] = [] ->
  (JS.truthy (headers req !! "authorization") = false ->
   handle the_app req w = (Normal tt, replied 401 (Text "Unauthorized") w)) /\
  (forall v err,
     headers req !! "authorization" = Some v -> v <> "" ->
     jwt_verify jwt_decode (JS.split " " v !! 1%nat) (JWT_SECRET env_JWT_SECRET)
     = inl err ->
     handle the_app req w = (Normal tt, replied 403 (Text "Forbidden") w)) /\
  (forall v claims,
     headers req !! "authorization" = Some v -> v <> "" ->
     jwt_verify jwt_decode (JS.split " " v !! 1%nat) (JWT_SECRET env_JWT_SECRET)
     = inr claims ->
     handle the_app req w
     = (Normal tt, replied 404 (Text ("Cannot " ++ method req)) w)).
Proof.
  intros Hpath Hseg Hfind Hallow.
  destruct req as [m p hs q ps b u]. cbn [path] in Hpath. subst p.
  unfold set_path in Hfind, Hallow.
  cbn [method path headers query params body user] in Hfind, Hallow.
  rewrite (unrouted_student_reaches_auth m seg sub hs q ps b u w Hseg Hfind
             Hallow).
  cbn [headers method]. split; [|split].
  - intros Hfalsy.
    by rewrite (authenticate_falsy env_JWT_SECRET jwt_decode
                  (mkRequest m sub hs q ps b u) w Hfalsy).
  - intros v err Hh Hv Hverify.
    by rewrite (authenticate_truthy env_JWT_SECRET jwt_decode
                  (mkRequest m sub hs q ps b u) w v Hh Hv), Hverify.
  - intros v claims Hh Hv Hverify.
    rewrite (authenticate_truthy env_JWT_SECRET jwt_decode
               (mkRequest m sub hs q ps b u) w v Hh Hv), Hverify.
    rewrite (find_route_ext (studentRoutes schema)
               (mkRequest m sub hs q ps b u)
               (set_user claims (mkRequest m sub hs q ps b u)))
      by reflexivity.
    rewrite (allowed_ext (studentRoutes schema)
               (mkRequest m sub hs q ps b u)
               (set_user claims (mkRequest m sub hs q ps b u)))
      by reflexivity.
    rewrite Hfind, Hallow. unfold set_user, set_path.
    cbn [method path headers query params body user].
    skip_mount "teachers" Hseg.
    rewrite handle_verb_miss; [reflexivity| |].
    + unfold match_route. cbn [route_pattern path match_pattern].
      by destruct (method_matches _ _).
    + unfold allow_route. cbn [route_pattern path match_pattern].
      by destruct (String.eqb _ _).
Qed.

End AppMore.

Import App.

Lemma unmounted_paths_witness :
  serve (handle Fixture.application (Fixture.request "GET" [] None ∅ ∅))
    Fixture.store0
  = (Normal tt,
     mkWorld Fixture.store0 (mkRes 200 [(200, Text "Welcome to School API!")])) /\
  serve (handle Fixture.application (Fixture.request "OPTIONS" [] None ∅ ∅))
    Fixture.store0
  = (Normal tt,
     mkWorld Fixture.store0
       (mkRes 200 [(200, Allowed (list_to_set ["GET"; "HEAD"]))])) /\
  serve (handle Fixture.application
           (Fixture.request "GET" ["grades"; "1"] (Some "Bearer forged") ∅ ∅))
    Fixture.store0
  = (Normal tt, mkWorld Fixture.store0 (mkRes 404 [(404, Text "Cannot GET")])).
Proof.
  split; [|split].
  - apply (proj1 (unmounted_paths Fixture.schema None Fixture.jwt_decode
                    Fixture.pass Fixture.pass [] []
                    (Fixture.request "GET" [] None ∅ ∅) Fixture.store0));
      [reflexivity | by left].
  - apply (proj1 (proj2 (unmounted_paths Fixture.schema None Fixture.jwt_decode
                           Fixture.pass Fixture.pass [] []
                           (Fixture.request "OPTIONS" [] None ∅ ∅)
                           Fixture.store0)));
      reflexivity.
  - apply (proj2 (proj2 (proj2 (unmounted_paths Fixture.schema None
                                  Fixture.jwt_decode
                                  Fixture.pass Fixture.pass [] []
                                  (Fixture.request "GET" ["grades"; "1"]
                                     (Some "Bearer forged") ∅ ∅)
                                  Fixture.store0)))
             "grades" ["1"]); reflexivity.
Defined.

Lemma unrouted_student_request_by_token_witness :
  handle Fixture.application (Fixture.patch_students (Some "Bearer good.token"))
    (mkWorld Fixture.store0 fresh_res)
  = (Normal tt,
     replied 404 (Text "Cannot PATCH") (mkWorld Fixture.store0 fresh_res)) /\
  handle Fixture.application (Fixture.patch_students (Some "Bearer forged"))
    (mkWorld Fixture.store0 fresh_res)
  = (Normal tt,
     replied 403 (Text "Forbidden") (mkWorld Fixture.store0 fresh_res)) /\
  handle Fixture.application (Fixture.patch_students None)
    (mkWorld Fixture.store0 fresh_res)
  = (Normal tt,
     replied 401 (Text "Unauthorized") (mkWorld Fixture.store0 fresh_res)).
Proof.
  split; [|split].
  - apply (proj2 (proj2 (unrouted_student_request_by_token Fixture.schema None
                           Fixture.jwt_decode Fixture.pass Fixture.pass [] []
                           (Fixture.patch_students (Some "Bearer good.token"))
                           "students" [] _ eq_refl eq_refl eq_refl eq_refl))
             "Bearer good.token" {[ "sub" := "1" ]});
      [reflexivity | discriminate | reflexivity].
  - apply (proj1 (proj2 (unrouted_student_request_by_token Fixture.schema None
                           Fixture.jwt_decode Fixture.pass Fixture.pass [] []
                           (Fixture.patch_students (Some "Bearer forged"))
                           "students" [] _ eq_refl eq_refl eq_refl eq_refl))
             "Bearer forged" (JS.Error "invalid token"));
      [reflexivity | discriminate | reflexivity].
  - apply (proj1 (unrouted_student_request_by_token Fixture.schema None
                    Fixture.jwt_decode Fixture.pass Fixture.pass [] []
                    (Fixture.patch_students None)
                    "students" [] _ eq_refl eq_refl eq_refl eq_refl)).
    reflexivity.
Defined.

(** An [OPTIONS] request for a path of the student routes is answered by the
    unauthenticated router, with the methods of the routes on that path and
    whatever the Authorization header. *)
Example options_students :
  sent (res (serve (handle Fixture.application
                      (Fixture.request "OPTIONS" ["students"] None ∅ ∅))
               Fixture.store0).2)
  = [(200, Allowed (list_to_set ["POST"; "GET"; "HEAD"]))] /\
  sent (res (serve (handle Fixture.application
                      (Fixture.request "OPTIONS" ["students"; "7"]
                         (Some "Bearer forged") ∅ ∅))
               Fixture.store0).2)
  = [(200, Allowed (list_to_set ["GET"; "HEAD"; "PUT"; "DELETE"]))].
Proof. split; reflexivity. Qed.

(** ** The storage calls of the handlers *)

Section CallsSpec.
Import Storage Http Controllers.

Variable schema : Schema.

Ltac run_calls :=
  unfold serve, try_catch, bind, ret, await, status, json;
  cbn [store res statusCode sent fst snd];
  unfold create, findByPk, update, destroy, begin_call;
  cbn [check_includes].

(** X16. The calls a handler makes on the models, whatever the store does:
    [create] makes one [create] call with the request body; [getById] makes
    one primary-key search that always includes the Course relation,
    whatever the query parameters; [update] and [delete] make one
    primary-key search and then at most one call of [update], respectively
    [destroy], only when the search found a record and only on that
    record. *)
Theorem handler_calls (r : Resource) (req : Request) (s : Store) :
  let m := model_of r in
  let id := params req !! "id" in
  trace (store (serve (create_of schema r req) s).2)
  = (trace s ++ [CallCreate m (body req)])%list /\
  trace (store (serve (getById_of schema r req) s).2)
  = (trace s ++ [CallFindByPk m id (Some (IncludeModel Course))])%list /\
  (trace (store (serve (update_of schema r req) s).2)
   = (trace s ++ [CallFindByPk m id None])%list \/
   exists k old,
     lookup_pk schema m id s = Some (k, old) /\
     trace (store (serve (update_of schema r req) s).2)
     = (trace s ++ [CallFindByPk m id None; CallUpdate m k (body req)])%list) /\
  (trace (store (serve (delete_of schema r req) s).2)
   = (trace s ++ [CallFindByPk m id None])%list \/
   exists k old,
     lookup_pk schema m id s = Some (k, old) /\
     trace (store (serve (delete_of schema r req) s).2)
     = (trace s ++ [CallFindByPk m id None; CallDestroy m k])%list).
Proof.
  cbv zeta. split; [|split; [|split]].
  - destruct r; unfold create_of, createStudent, createTeacher; run_calls;
      destruct (faults s) as [|[e|] fs]; try reflexivity;
      cbn [tables autoinc record_call];
      (destruct (body req !! "id") as [p|];
       [destruct (pk_of_param schema p) as [k|]; [|reflexivity]|]);
      match goal with
      | |- context [tables s ?m !! ?k] => destruct (tables s m !! k)
      end;
      reflexivity.
  - destruct r; unfold getById_of, getStudentById, getTeacherById; run_calls;
      unfold check_include; cbn [include_target];
      destruct (faults s) as [|[e|] fs]; cbn [model_of];
      try match goal with
          | |- context [associated schema ?a ?b] =>
              destruct (associated schema a b)
          end;
      try match goal with
          | |- context [lookup_pk schema ?m ?i ?s1] =>
              destruct (lookup_pk schema m i s1)
          end;
      reflexivity.
  - destruct (lookup_pk schema (model_of r) (params req !! "id") s) as [[k old]|] eqn:Hfound.
    + destruct (faults s) as [|[e|] fs] eqn:Hf.
      * right. exists k, old. split; [done|].
        destruct r; unfold update_of, updateStudent, updateTeacher; run_calls;
          rewrite Hf; rewrite (lookup_pk_tables _ _ _ s) by reflexivity;
          cbn [model_of] in Hfound; rewrite Hfound;
          cbn [fmap option_fmap option_map store faults record_call];
          cbn [trace store snd set_table record_call load inst_model inst_id];
          by rewrite <- app_assoc.
      * left.
        destruct r; unfold update_of, updateStudent, updateTeacher; run_calls;
          rewrite Hf; reflexivity.
      * right. exists k, old. split; [done|].
        destruct r; unfold update_of, updateStudent, updateTeacher; run_calls;
          rewrite Hf; rewrite (lookup_pk_tables _ _ _ s) by reflexivity;
          cbn [model_of] in Hfound; rewrite Hfound;
          cbn [fmap option_fmap option_map store faults record_call];
          destruct fs as [|[e|] fs];
          cbn [trace store snd set_table record_call load inst_model inst_id];
          by rewrite <- app_assoc.
    + left.
      destruct r; unfold update_of, updateStudent, updateTeacher; run_calls;
        destruct (faults s) as [|[e|] fs]; try reflexivity;
        rewrite (lookup_pk_tables _ _ _ s) by reflexivity;
        cbn [model_of] in Hfound; rewrite Hfound; reflexivity.
  - destruct (lookup_pk schema (model_of r) (params req !! "id") s) as [[k old]|] eqn:Hfound.
    + destruct (faults s) as [|[e|] fs] eqn:Hf.
      * right. exists k, old. split; [done|].
        destruct r; unfold delete_of, deleteStudent, deleteTeacher; run_calls;
          rewrite Hf; rewrite (lookup_pk_tables _ _ _ s) by reflexivity;
          cbn [model_of] in Hfound; rewrite Hfound;
          cbn [fmap option_fmap option_map store faults record_call];
          cbn [trace store snd set_table record_call load inst_model inst_id];
          by rewrite <- app_assoc.
      * left.
        destruct r; unfold delete_of, deleteStudent, deleteTeacher; run_calls;
          rewrite Hf; reflexivity.
      * right. exists k, old. split; [done|].
        destruct r; unfold delete_of, deleteStudent, deleteTeacher; run_calls;
          rewrite Hf; rewrite (lookup_pk_tables _ _ _ s) by reflexivity;
          cbn [model_of] in Hfound; rewrite Hfound;
          cbn [fmap option_fmap option_map store faults record_call];
          destruct fs as [|[e|] fs];
          cbn [trace store snd set_table record_call load inst_model inst_id];
          by rewrite <- app_assoc.
    + left.
      destruct r; unfold delete_of, deleteStudent, deleteTeacher; run_calls;
        destruct (faults s) as [|[e|] fs]; try reflexivity;
        rewrite (lookup_pk_tables _ _ _ s) by reflexivity;
        cbn [model_of] in Hfound; rewrite Hfound; reflexivity.
Qed.

End CallsSpec.

(** ** The reach of the writes, and the echo of the envelope *)

Section LocalitySpec.
Import Storage Http Controllers ListQuery.

Variable schema : Schema.

Ltac run_writes :=
  unfold serve, try_catch, bind, ret, await, status, json;
  cbn [store res statusCode sent fst snd];
  unfold findByPk, update, destroy, begin_call;
  cbn [check_includes].

Lemma set_table_other (m m' : Model) (t : gmap Z Row) (s : Store) (k' : Z) :
  m' <> m -> tables (set_table m t s) m' !! k' = tables s m' !! k'.
Proof. intros Hne. simpl. by rewrite fn_lookup_insert_ne. Qed.

(** X17. The writes are local: whatever the store does, [update] and
    [delete] leave every record as it was, except possibly the record of the
    handler's model that the database finds for the identifier of the
    request; and [update] neither creates nor removes a record. *)
Theorem writes_are_local (r : Resource) (req : Request) (s : Store) :
  let m := model_of r in
  let id := params req !! "id" in
  (forall m' k',
     tables (store (serve (update_of schema r req) s).2) m' !! k'
     = tables s m' !! k' \/
     (m' = m /\ exists old, lookup_pk schema m id s = Some (k', old))) /\
  (forall m' k',
     is_Some (tables (store (serve (update_of schema r req) s).2) m' !! k')
     <-> is_Some (tables s m' !! k')) /\
  (forall m' k',
     tables (store (serve (delete_of schema r req) s).2) m' !! k'
     = tables s m' !! k' \/
     (m' = m /\ exists old, lookup_pk schema m id s = Some (k', old))).
Proof.
  cbv zeta.
  assert (forall (s1 : Store) (t : gmap Z Row) (k : Z) (old : Row) m' k',
            lookup_pk schema (model_of r) (params req !! "id") s = Some (k, old) ->
            tables s1 = tables s ->
            (forall j, j <> k -> t !! j = tables s (model_of r) !! j) ->
            tables (set_table (model_of r) t s1) m' !! k' = tables s m' !! k' \/
            (m' = model_of r /\
             exists old', lookup_pk schema (model_of r) (params req !! "id") s
                          = Some (k', old'))) as Hlocal.
  { intros s1 t k old m' k' Hfound Hs1 Ht.
    destruct (decide (m' = model_of r)) as [->|Hm].
    - destruct (decide (k' = k)) as [->|Hk].
      + right. split; [done|]. by exists old.
      + left. simpl. rewrite fn_lookup_insert. by apply Ht.
    - left. rewrite set_table_other by done. by rewrite Hs1. }
  destruct (lookup_pk schema (model_of r) (params req !! "id") s) as [[k old]|] eqn:Hfound.
  - split; [|split].
    + intros m' k'.
      destruct r; unfold update_of, updateStudent, updateTeacher; run_writes;
        destruct (faults s) as [|[e|] [|[e'|] fs]];
        try (left; reflexivity);
        rewrite (lookup_pk_tables _ _ _ s) by reflexivity;
        cbn [model_of] in Hfound; rewrite Hfound;
        cbn [fmap option_fmap option_map store faults record_call snd
               load inst_model inst_id];
        try (left; reflexivity);
        (eapply (Hlocal _ _ k old); [reflexivity | reflexivity |]);
        intros j Hj; by apply lookup_alter_ne.
    + intros m' k'.
      destruct r; unfold update_of, updateStudent, updateTeacher; run_writes;
        destruct (faults s) as [|[e|] [|[e'|] fs]];
        try reflexivity;
        rewrite (lookup_pk_tables _ _ _ s) by reflexivity;
        cbn [model_of] in Hfound; rewrite Hfound;
        cbn [fmap option_fmap option_map store faults record_call snd
               load inst_model inst_id tables set_table];
        try reflexivity;
        (match goal with
         | |- context [<[?m := _]> _ m'] =>
             destruct (decide (m' = m)) as [->|Hm];
             [rewrite fn_lookup_insert | by rewrite fn_lookup_insert_ne]
         end);
        rewrite lookup_alter; case_decide; subst;
        rewrite ?is_Some_alt; try reflexivity;
        by destruct (tables s _ !! _).
    + intros m' k'.
      destruct r; unfold delete_of, deleteStudent, deleteTeacher; run_writes;
        destruct (faults s) as [|[e|] [|[e'|] fs]];
        try (left; reflexivity);
        rewrite (lookup_pk_tables _ _ _ s) by reflexivity;
        cbn [model_of] in Hfound; rewrite Hfound;
        cbn [fmap option_fmap option_map store faults record_call snd
               load inst_model inst_id];
        try (left; reflexivity);
        (eapply (Hlocal _ _ k old); [reflexivity | reflexivity |]);
        intros j Hj; by apply lookup_delete_ne.
  - assert (forall m' k',
              tables (store (serve (update_of schema r req) s).2) m' !! k'
              = tables s m' !! k') as Hupd.
    { intros m' k'.
      destruct r; unfold update_of, updateStudent, updateTeacher; run_writes;
        destruct (faults s) as [|[e|] fs]; try reflexivity;
        rewrite (lookup_pk_tables _ _ _ s) by reflexivity;
        cbn [model_of] in Hfound; rewrite Hfound; reflexivity. }
    split; [|split].
    + intros m' k'. left. apply Hupd.
    + intros m' k'. by rewrite Hupd.
    + intros m' k'. left.
      destruct r; unfold delete_of, deleteStudent, deleteTeacher; run_writes;
        destruct (faults s) as [|[e|] fs]; try reflexivity;
        rewrite (lookup_pk_tables _ _ _ s) by reflexivity;
        cbn [model_of] in Hfound; rewrite Hfound; reflexivity.
Qed.


End LocalitySpec.


(** ** Examples of what the store refuses and keeps *)

Example create_examples :
  (exists s1 created,
     serve (create_of Fixture.schema Teachers Scenario.create_with_id_request)
       Fixture.store0
     = (Normal tt, mkWorld s1 (mkRes 201 [(201, JsonRecord created)])) /\
     inst_id created = 77 /\
     row_values (inst_row created) = {[ "name" := "Eve" ]}) /\
  sent (res (serve (create_of Fixture.schema Teachers
                      Scenario.create_taken_id_request) Fixture.store0).2)
  = [(500, JsonError "Validation error")] /\
  map fst
    (sent (res (serve (getAll_of Fixture.schema Teachers
                         Scenario.huge_limit_request) Fixture.store0).2))
  = [500].
Proof.
  split; [|split].
  - eexists _, _. split; [reflexivity|]. split; reflexivity.
  - reflexivity.
  - reflexivity.
Qed.
